(** * NFC attendance API (server.js): roster store, verification and enrollment

    A shallow embedding of the Express handlers of [server.js] over an
    explicit model of the PostgreSQL tables that the handlers read and
    write.  Tables are lists of rows in insertion order, the constraints
    are the ones of the schema in the [/api/init-db] handler, and every
    handler returns its response together with the store it leaves behind
    and the list of storage operations it issued. *)

From Stdlib Require Import List String Ascii ZArith Bool Lia Permutation.
From Stdlib Require Import DecimalString.
Import ListNotations.
Local Open Scope string_scope.
Local Open Scope Z_scope.

(* ===================================================================== *)
(** ** The tables *)
(* ===================================================================== *)

(** [role VARCHAR(20) CHECK (role IN ('student', 'teacher'))] *)
Inductive role := student | teacher.

Definition role_eqb (a b : role) : bool :=
  match a, b with
  | student, student | teacher, teacher => true
  | _, _ => false
  end.

(** [persons]: [id_number] is the only nullable column. *)
Record person := mkPerson {
  person_id : Z;
  name : string;
  rfid_tag : string;
  person_role : role;
  id_number : option string
}.

Record section := mkSection {
  section_id : Z;
  section_name : string
}.

(** [student_sections], primary key [(person_id, section_id)]. *)
Record student_section := mkLink {
  ss_person_id : Z;
  ss_section_id : Z
}.

Record classroom := mkClassroom {
  classroom_id : Z;
  room_number : string
}.

(** [attendance]; the [timestamp] column (filled by [NOW()]) is left out,
    the clock is not part of the model. *)
Record attendance_row := mkAttendance {
  attendance_id : Z;
  a_person_id : Z;
  a_classroom_id : Z
}.

(** The store: the five tables the handlers touch and the three [SERIAL]
    sequences, each holding the value its next [nextval] returns. *)
Record db := mkDb {
  persons : list person;
  sections : list section;
  student_sections : list student_section;
  classrooms : list classroom;
  attendance : list attendance_row;
  person_id_seq : Z;
  section_id_seq : Z;
  attendance_id_seq : Z
}.

(** Storage operations, as they appear on the wire. *)
Inductive sql :=
| BEGIN
| COMMIT
| ROLLBACK
| SELECT_students_by_tags (tags : list string)
| INSERT_attendance (pid cid : Z)
| SELECT_person_by_rfid_tag (tag : string)
| SELECT_person_by_id_number (idn : string)
| SELECT_section_by_name (n : string)
| INSERT_section (n : string)
| INSERT_person (nm tag idn : string)
| INSERT_student_section (pid sid : Z).

Inductive event :=
| PoolConnect
| ClientRelease
| Query (q : sql).

(** A PostgreSQL error as the handlers see it: [error.code] and the name
    of the violated constraint. *)
Record pg_error := mkError {
  code : string;
  constraint : string
}.

Definition unique_violation (c : string) : pg_error := mkError "23505" c.
Definition foreign_key_violation (c : string) : pg_error := mkError "23503" c.
Definition string_data_right_truncation : pg_error := mkError "22001" "".

(* ===================================================================== *)
(** ** Values of the request bodies *)
(* ===================================================================== *)

(** What [req.body.rfid_tags] can be after [express.json()].  An array
    holds token strings, as the API's contract has it. *)
Inductive js_value :=
| JsUndefined
| JsNull
| JsBool (b : bool)
| JsNumber (z : Z)
| JsString (s : string)
| JsArray (items : list string)
| JsObject.

(** JavaScript truthiness: [!v] is [negb (truthy v)]. *)
Definition truthy (v : js_value) : bool :=
  match v with
  | JsUndefined | JsNull => false
  | JsBool b => b
  | JsNumber z => negb (z =? 0)
  | JsString s => negb (s =? "")%string
  | JsArray _ | JsObject => true
  end.

(** [Array.isArray] *)
Definition is_array (v : js_value) : bool :=
  match v with
  | JsArray _ => true
  | _ => false
  end.

Definition array_items (v : js_value) : list string :=
  match v with
  | JsArray l => l
  | _ => []
  end.

(** Body of [POST /api/verify-attendance]; [None] is an omitted
    [classroom_id]. *)
Record verify_body := mkVerifyBody {
  body_rfid_tags : js_value;
  body_classroom_id : option Z
}.

(* ===================================================================== *)
(** ** POST /api/verify-attendance *)
(* ===================================================================== *)

Definition includes (l : list string) (s : string) : bool :=
  existsb (String.eqb s) l.

(** One row of the lookup query of lines 57-63. *)
Record student_row := mkRow {
  r_person_id : Z;
  r_name : string;
  r_rfid_tag : string;
  r_id_number : option string;
  r_section_name : option string
}.

(** [persons p LEFT JOIN student_sections ss ON p.person_id = ss.person_id]:
    a person with no link is kept once, with a null link. *)
Definition links_of (d : db) (p : person) : list (option student_section) :=
  match filter (fun l => ss_person_id l =? person_id p) (student_sections d) with
  | [] => [None]
  | ls => map Some ls
  end.

(** [... LEFT JOIN sections s ON ss.section_id = s.section_id]: a null
    link or a link with no section row is kept once, with a null name. *)
Definition section_names_of (d : db) (l : option student_section) : list (option string) :=
  match l with
  | None => [None]
  | Some l =>
      match filter (fun s => section_id s =? ss_section_id l) (sections d) with
      | [] => [None]
      | ss => map (fun s => Some (section_name s)) ss
      end
  end.

Definition joined_sections (d : db) (p : person) : list (option string) :=
  flat_map (section_names_of d) (links_of d p).

Definition persons_join_sections (d : db) : list (person * option string) :=
  flat_map (fun p => map (pair p) (joined_sections d p)) (persons d).

(** [WHERE p.rfid_tag = ANY($1) AND p.role = 'student'] *)
Definition where_student_tag (tags : list string) (r : person * option string) : bool :=
  includes tags (rfid_tag (fst r)) && role_eqb (person_role (fst r)) student.

Definition select_students_by_tags (d : db) (tags : list string) : list student_row :=
  map (fun r => mkRow (person_id (fst r)) (name (fst r)) (rfid_tag (fst r))
                      (id_number (fst r)) (snd r))
      (filter (where_student_tag tags) (persons_join_sections d)).

Definition set_attendance_id_seq (d : db) (n : Z) : db :=
  mkDb (persons d) (sections d) (student_sections d) (classrooms d)
       (attendance d) (person_id_seq d) (section_id_seq d) n.

Definition add_attendance (d : db) (a : attendance_row) : db :=
  mkDb (persons d) (sections d) (student_sections d) (classrooms d)
       (attendance d ++ [a]) (person_id_seq d) (section_id_seq d)
       (attendance_id_seq d).

(** [INSERT INTO attendance (person_id, classroom_id, timestamp)
     VALUES ($1, $2, NOW())] through [pool.query], so committed at once.
    The sequence advances whether or not the row is accepted; the row is
    refused when a foreign key has no target or the primary key is taken. *)
Definition insert_attendance (d : db) (pid cid : Z) : db * bool :=
  let id := attendance_id_seq d in
  let d1 := set_attendance_id_seq d (id + 1) in
  if existsb (fun p => person_id p =? pid) (persons d)
     && existsb (fun c => classroom_id c =? cid) (classrooms d)
     && negb (existsb (fun a => attendance_id a =? id) (attendance d))
  then (add_attendance d1 (mkAttendance id pid cid), true)
  else (d1, false).

(** [verifiedStudents.map(student => pool.query(INSERT ...))] followed by
    [Promise.all]: every insert is issued, each stands on its own, and the
    flag says whether all of them were accepted.  The inserts are taken in
    row order. *)
Fixpoint insert_attendance_all (d : db) (rows : list student_row) (cid : Z) : db * bool :=
  match rows with
  | [] => (d, true)
  | r :: rs =>
      let (d1, ok1) := insert_attendance d (r_person_id r) cid in
      let (d2, ok2) := insert_attendance_all d1 rs cid in
      (d2, ok1 && ok2)
  end.

(** An element of [verified_students] in the response. *)
Record verified_student := mkVerified {
  vs_name : string;
  vs_section : string;
  vs_rfid_tag : string;
  vs_id_number : option string;
  vs_status : string
}.

(** [student.section_name || 'Unknown'] *)
Definition section_or_unknown (s : option string) : string :=
  match s with
  | Some n => if (n =? "")%string then "Unknown" else n
  | None => "Unknown"
  end.

Definition present (r : student_row) : verified_student :=
  mkVerified (r_name r) (section_or_unknown (r_section_name r)) (r_rfid_tag r)
             (r_id_number r) "Present".

Definition decimal (n : nat) : string := NilEmpty.string_of_uint (Nat.to_uint n).

Record verify_result := mkVerifyResult {
  total_scans : nat;
  verified_students : list verified_student;
  unrecognized : list string;
  message : string
}.

Inductive verify_response :=
| VerifyOk (r : verify_result)          (* 200, success: true *)
| VerifyInvalid                         (* 400 'Invalid RFID tags array' *)
| VerifyFailed.                         (* 500 'Failed to verify attendance' *)

(** [const { rfid_tags, classroom_id = 1 } = req.body]: the default
    stands in for an omitted [classroom_id]. *)
Definition classroom_of (body : verify_body) : Z :=
  match body_classroom_id body with
  | Some c => c
  | None => 1
  end.

(** The [message] of the response, from the two lengths. *)
Definition summary (verified unknown : nat) : string :=
  decimal verified ++ " students verified, " ++ decimal unknown ++ " unrecognized tags".

(** The handler of lines 48-100. *)
Definition verify_attendance (d : db) (body : verify_body)
  : verify_response * db * list event :=
  let rfid_tags := body_rfid_tags body in
  let classroom_id := classroom_of body in
  if negb (truthy rfid_tags) || negb (is_array rfid_tags) then
    (VerifyInvalid, d, [])
  else
    let tags := array_items rfid_tags in
    let verifiedStudents := select_students_by_tags d tags in
    let foundTags := map r_rfid_tag verifiedStudents in
    let unrecognizedTags := filter (fun tag => negb (includes foundTags tag)) tags in
    let (d', ok) := insert_attendance_all d verifiedStudents classroom_id in
    let log := Query (SELECT_students_by_tags tags)
               :: map (fun s => Query (INSERT_attendance (r_person_id s) classroom_id))
                      verifiedStudents in
    if ok then
      (VerifyOk (mkVerifyResult
                   (List.length tags)
                   (map present verifiedStudents)
                   unrecognizedTags
                   (summary (List.length verifiedStudents)
                            (List.length unrecognizedTags))),
       d', log)
    else (VerifyFailed, d', log).

(* ===================================================================== *)
(** ** The pooled client of POST /api/add-student *)
(* ===================================================================== *)

(** Rows inserted inside an open transaction, not yet committed. *)
Record txn := mkTxn {
  tx_sections : list section;
  tx_persons : list person;
  tx_links : list student_section
}.

Definition empty_txn : txn := mkTxn [] [] [].

(** The client checked out of the pool: the committed store it talks to,
    its open transaction if any, and what it has sent so far. *)
Record client_state := mkClient {
  committed : db;
  pending : option txn;
  log : list event
}.

(** Other requests commit while the handler waits on an [await].  An
    interference gives, for the position of a statement in the log, what
    the others have done to the committed store before that statement
    runs; [quiet] is a handler running alone. *)
Definition interference := nat -> db -> db.

Definition quiet : interference := fun _ d => d.

(** What the client's statements see: committed rows and its own. *)
Definition view_sections (st : client_state) : list section :=
  (sections (committed st)
   ++ match pending st with Some t => tx_sections t | None => [] end)%list.

Definition view_persons (st : client_state) : list person :=
  (persons (committed st)
   ++ match pending st with Some t => tx_persons t | None => [] end)%list.

Definition view_links (st : client_state) : list student_section :=
  (student_sections (committed st)
   ++ match pending st with Some t => tx_links t | None => [] end)%list.

Definition set_person_id_seq (d : db) (n : Z) : db :=
  mkDb (persons d) (sections d) (student_sections d) (classrooms d)
       (attendance d) n (section_id_seq d) (attendance_id_seq d).

Definition set_section_id_seq (d : db) (n : Z) : db :=
  mkDb (persons d) (sections d) (student_sections d) (classrooms d)
       (attendance d) (person_id_seq d) n (attendance_id_seq d).

(** Rows reach the committed tables at [COMMIT]. *)
Definition apply_txn (t : txn) (d : db) : db :=
  mkDb (persons d ++ tx_persons t) (sections d ++ tx_sections t)
       (student_sections d ++ tx_links t) (classrooms d) (attendance d)
       (person_id_seq d) (section_id_seq d) (attendance_id_seq d).

(** A row written by the client goes to its open transaction, or straight
    to the store when there is none (autocommit). *)
Definition write (t : txn) (st : client_state) : client_state :=
  match pending st with
  | Some t0 =>
      mkClient (committed st)
               (Some (mkTxn (tx_sections t0 ++ tx_sections t)
                            (tx_persons t0 ++ tx_persons t)
                            (tx_links t0 ++ tx_links t)))
               (log st)
  | None => mkClient (apply_txn t (committed st)) None (log st)
  end.

(** Sending a statement: the others' commits land first, then the
    statement is on the wire. *)
Definition issue (env : interference) (q : sql) (st : client_state) : client_state :=
  mkClient (env (List.length (log st)) (committed st)) (pending st)
           (log st ++ [Query q]).

Definition nextval_section (st : client_state) : client_state :=
  mkClient (set_section_id_seq (committed st) (section_id_seq (committed st) + 1))
           (pending st) (log st).

Definition nextval_person (st : client_state) : client_state :=
  mkClient (set_person_id_seq (committed st) (person_id_seq (committed st) + 1))
           (pending st) (log st).

(** Responses of the enrollment handler. *)
Record enrolled := mkEnrolled {
  e_person_id : Z;
  e_name : string;
  e_rfid_tag : string;
  e_section : string;
  e_id_number : string
}.

Inductive enroll_response :=
| EnrollOk (msg : string) (s : enrolled)      (* 200, success: true *)
| EnrollError (status : Z) (error : string).  (* success: false *)

(** How a piece of the [try] block ends: it goes on with a value, it
    throws, or it has sent a response and returned from the handler. *)
Inductive outcome (A : Type) :=
| Value (a : A) (st : client_state)
| Thrown (e : pg_error) (st : client_state)
| Responded (r : enroll_response) (st : client_state).

Arguments Value {A} a st.
Arguments Thrown {A} e st.
Arguments Responded {A} r st.

Definition M (A : Type) := client_state -> outcome A.

Definition ret {A} (a : A) : M A := fun st => Value a st.

Definition bind {A B} (m : M A) (k : A -> M B) : M B :=
  fun st =>
    match m st with
    | Value a st' => k a st'
    | Thrown e st' => Thrown e st'
    | Responded r st' => Responded r st'
    end.

Definition throw {A} (e : pg_error) : M A := fun st => Thrown e st.

(** [return res.status(...).json(...)] *)
Definition respond {A} (r : enroll_response) : M A := fun st => Responded r st.

Declare Scope client_scope.
Delimit Scope client_scope with client.
Notation "x <- m ;; k" := (bind m (fun x => k))
  (at level 100, m at next level, right associativity) : client_scope.
Notation "m ;; k" := (bind m (fun _ => k))
  (at level 100, right associativity) : client_scope.

(** *** The statements the handler sends *)

(** [BEGIN]: inside a transaction already, PostgreSQL only warns. *)
Definition begin_stmt (env : interference) (st : client_state) : client_state :=
  let st := issue env BEGIN st in
  mkClient (committed st)
           (match pending st with Some t => Some t | None => Some empty_txn end)
           (log st).

Definition commit_stmt (env : interference) (st : client_state) : client_state :=
  let st := issue env COMMIT st in
  mkClient (match pending st with
            | Some t => apply_txn t (committed st)
            | None => committed st
            end)
           None (log st).

Definition rollback_stmt (env : interference) (st : client_state) : client_state :=
  let st := issue env ROLLBACK st in
  mkClient (committed st) None (log st).

Definition client_begin (env : interference) : M unit :=
  fun st => Value tt (begin_stmt env st).

Definition client_commit (env : interference) : M unit :=
  fun st => Value tt (commit_stmt env st).

(** [SELECT person_id FROM persons WHERE rfid_tag = $1] *)
Definition select_person_by_rfid_tag (env : interference) (tag : string) : M (list Z) :=
  fun st =>
    let st := issue env (SELECT_person_by_rfid_tag tag) st in
    Value (map person_id
               (filter (fun p => (rfid_tag p =? tag)%string) (view_persons st)))
          st.

(** [SELECT person_id FROM persons WHERE id_number = $1]; a null
    [id_number] equals nothing. *)
Definition select_person_by_id_number (env : interference) (idn : string) : M (list Z) :=
  fun st =>
    let st := issue env (SELECT_person_by_id_number idn) st in
    Value (map person_id
               (filter (fun p => match id_number p with
                                 | Some i => (i =? idn)%string
                                 | None => false
                                 end)
                       (view_persons st)))
          st.

(** [SELECT section_id FROM sections WHERE section_name = $1] *)
Definition select_section_by_name (env : interference) (n : string) : M (list Z) :=
  fun st =>
    let st := issue env (SELECT_section_by_name n) st in
    Value (map section_id
               (filter (fun s => (section_name s =? n)%string) (view_sections st)))
          st.

(** [INSERT INTO sections (section_name) VALUES ($1) RETURNING section_id]
    against [section_id SERIAL PRIMARY KEY, section_name VARCHAR(50) UNIQUE].
    A name longer than the column is refused with 22001.  PostgreSQL makes
    one exception, which is not told apart here: a name whose excess is
    spaces only is cut to the width and kept.  A name this insert accepts
    fits the column and is stored as it is. *)
Definition insert_section (env : interference) (n : string) : M Z :=
  fun st =>
    let st := issue env (INSERT_section n) st in
    let id := section_id_seq (committed st) in
    let st := nextval_section st in
    if (50 <? String.length n)%nat then
      Thrown string_data_right_truncation st
    else if existsb (fun s => section_id s =? id) (view_sections st) then
      Thrown (unique_violation "sections_pkey") st
    else if existsb (fun s => (section_name s =? n)%string) (view_sections st) then
      Thrown (unique_violation "sections_section_name_key") st
    else
      Value id (write (mkTxn [mkSection id n] [] []) st).

(** [INSERT INTO persons (name, rfid_tag, role, id_number)
     VALUES ($1, $2, 'student', $4) RETURNING person_id] against
    [name VARCHAR(100)], [rfid_tag VARCHAR(100) UNIQUE],
    [id_number VARCHAR(20) UNIQUE].  A value longer than its column is
    refused with 22001, with the same exception left aside as for
    sections (an excess of spaces only, which PostgreSQL cuts off): the
    values this insert accepts fit their columns. *)
Definition insert_person (env : interference) (nm tag idn : string) : M Z :=
  fun st =>
    let st := issue env (INSERT_person nm tag idn) st in
    let id := person_id_seq (committed st) in
    let st := nextval_person st in
    if (100 <? String.length nm)%nat || (100 <? String.length tag)%nat
       || (20 <? String.length idn)%nat then
      Thrown string_data_right_truncation st
    else if existsb (fun p => person_id p =? id) (view_persons st) then
      Thrown (unique_violation "persons_pkey") st
    else if existsb (fun p => (rfid_tag p =? tag)%string) (view_persons st) then
      Thrown (unique_violation "persons_rfid_tag_key") st
    else if existsb (fun p => match id_number p with
                              | Some i => (i =? idn)%string
                              | None => false
                              end) (view_persons st) then
      Thrown (unique_violation "persons_id_number_key") st
    else
      Value id (write (mkTxn [] [mkPerson id nm tag student (Some idn)] []) st).

(** [INSERT INTO student_sections (person_id, section_id) VALUES ($1, $2)]
    against the composite primary key and the two foreign keys. *)
Definition insert_student_section (env : interference) (pid sid : Z) : M unit :=
  fun st =>
    let st := issue env (INSERT_student_section pid sid) st in
    if existsb (fun l => (ss_person_id l =? pid) && (ss_section_id l =? sid))
               (view_links st) then
      Thrown (unique_violation "student_sections_pkey") st
    else if negb (existsb (fun p => person_id p =? pid) (view_persons st)) then
      Thrown (foreign_key_violation "student_sections_person_id_fkey") st
    else if negb (existsb (fun s => section_id s =? sid) (view_sections st)) then
      Thrown (foreign_key_violation "student_sections_section_id_fkey") st
    else
      Value tt (write (mkTxn [] [] [mkLink pid sid]) st).

(* ===================================================================== *)
(** ** POST /api/add-student *)
(* ===================================================================== *)

(** Body of the request; [None] is a field that is absent or null, the
    other values are strings, as the contract has them. *)
Record enroll_body := mkEnrollBody {
  body_name : option string;
  body_rfid_tag : option string;
  body_section : option string;
  body_id_number : option string
}.

Definition truthy_field (f : option string) : bool :=
  match f with
  | Some s => negb (s =? "")%string
  | None => false
  end.

Definition field (f : option string) : string :=
  match f with
  | Some s => s
  | None => ""
  end.

Definition missing_fields : enroll_response :=
  EnrollError 400 "Missing required fields: name, rfid_tag, section, id_number".
Definition duplicate_tag : enroll_response :=
  EnrollError 400 "RFID tag already exists".
Definition duplicate_id_number : enroll_response :=
  EnrollError 400 "ID number already exists".
Definition duplicate_tag_or_id : enroll_response :=
  EnrollError 400 "Duplicate RFID tag or ID number".
Definition add_student_failed : enroll_response :=
  EnrollError 500 "Failed to add student".

Local Open Scope client_scope.

(** The second half of the [try] block, lines 131-171: get or create the
    section, insert the person and the link, commit and answer. *)
Definition enroll_rows (env : interference) (body : enroll_body) : M enroll_response :=
  sectionResult <- select_section_by_name env (field (body_section body)) ;;
  sectionId <- match sectionResult with
               | [] => insert_section env (field (body_section body))
               | id :: _ => ret id
               end ;;
  personId <- insert_person env (field (body_name body)) (field (body_rfid_tag body))
                            (field (body_id_number body)) ;;
  insert_student_section env personId sectionId ;;
  client_commit env ;;
  ret (EnrollOk ("Student " ++ field (body_name body) ++ " added successfully")
                (mkEnrolled personId (field (body_name body)) (field (body_rfid_tag body))
                            (field (body_section body)) (field (body_id_number body)))).

(** The [try] block, lines 107-171: [BEGIN], the validation of the body
    and the two duplicate checks, then the rows. *)
Definition add_student_try (env : interference) (body : enroll_body) : M enroll_response :=
  client_begin env ;;
  if negb (truthy_field (body_name body)) || negb (truthy_field (body_rfid_tag body))
     || negb (truthy_field (body_section body))
     || negb (truthy_field (body_id_number body))
  then respond missing_fields
  else
    existingTag <- select_person_by_rfid_tag env (field (body_rfid_tag body)) ;;
    if (0 <? List.length existingTag)%nat then respond duplicate_tag
    else
      existingId <- select_person_by_id_number env (field (body_id_number body)) ;;
      if (0 <? List.length existingId)%nat then respond duplicate_id_number
      else enroll_rows env body.

(** The [catch] block, lines 173-181. *)
Definition add_student_catch (env : interference) (e : pg_error) (st : client_state)
  : enroll_response * client_state :=
  let st := rollback_stmt env st in
  if (code e =? "23505")%string then (duplicate_tag_or_id, st)
  else (add_student_failed, st).

(** [client.release()] of the [finally] block. *)
Definition release (st : client_state) : client_state :=
  mkClient (committed st) (pending st) (log st ++ [ClientRelease]).

(** The whole handler, lines 103-185, on a client that the pool hands out
    idle. *)
Definition add_student (env : interference) (d : db) (body : enroll_body)
  : enroll_response * client_state :=
  let st0 := mkClient d None [PoolConnect] in
  let (r, st) := match add_student_try env body st0 with
                 | Value r st => (r, st)
                 | Responded r st => (r, st)
                 | Thrown e st => add_student_catch env e st
                 end in
  (r, release st).

Local Close Scope client_scope.

(* ===================================================================== *)
(** ** Payloads and the remaining endpoints *)
(* ===================================================================== *)

(** What [res.json] serialises. *)
#[local] Unset Elimination Schemes.
Inductive json :=
| JNull
| JBool (b : bool)
| JNum (z : Z)
| JStr (s : string)
| JArr (items : list json)
| JObj (fields : list (string * json)).
#[local] Set Elimination Schemes.

Record http_response := mkResponse {
  status : Z;
  payload : json
}.

(** [res.status(c).json({ success: false, error: e })] *)
Definition failure (c : Z) (e : string) : http_response :=
  mkResponse c (JObj [("success", JBool false); ("error", JStr e)]).

Definition json_of_option (s : option string) : json :=
  match s with
  | Some v => JStr v
  | None => JNull
  end.

Definition json_of_verified (v : verified_student) : json :=
  JObj [("name", JStr (vs_name v));
        ("section", JStr (vs_section v));
        ("rfid_tag", JStr (vs_rfid_tag v));
        ("id_number", json_of_option (vs_id_number v));
        ("status", JStr (vs_status v))].

(** The three [res...json(...)] calls of the verification handler. *)
Definition render_verify (r : verify_response) : http_response :=
  match r with
  | VerifyOk v =>
      mkResponse 200
        (JObj [("success", JBool true);
               ("total_scans", JNum (Z.of_nat (total_scans v)));
               ("verified_students", JArr (map json_of_verified (verified_students v)));
               ("unrecognized", JArr (map JStr (unrecognized v)));
               ("message", JStr (message v))])
  | VerifyInvalid => failure 400 "Invalid RFID tags array"
  | VerifyFailed => failure 500 "Failed to verify attendance"
  end.

(** The [res...json(...)] calls of the enrollment handler. *)
Definition render_enroll (r : enroll_response) : http_response :=
  match r with
  | EnrollOk msg s =>
      mkResponse 200
        (JObj [("success", JBool true);
               ("message", JStr msg);
               ("student", JObj [("person_id", JNum (e_person_id s));
                                 ("name", JStr (e_name s));
                                 ("rfid_tag", JStr (e_rfid_tag s));
                                 ("section", JStr (e_section s));
                                 ("id_number", JStr (e_id_number s))])])
  | EnrollError c e => failure c e
  end.

(** What [await pool.query(...)] gives a read-only handler: the rows, or
    a rejection. *)
Inductive query_outcome :=
| Rows (rows : list json)
| Rejected (e : pg_error).

(** [GET /api/health], lines 32-34. *)
Definition health : http_response :=
  mkResponse 200 (JObj [("status", JStr "OK");
                        ("message", JStr "NFC Attendance API is running")]).

(** [GET /api/sections], lines 37-45. *)
Definition get_sections (q : query_outcome) : http_response :=
  match q with
  | Rows rows => mkResponse 200 (JObj [("success", JBool true); ("sections", JArr rows)])
  | Rejected _ => failure 500 "Failed to fetch sections"
  end.

(** [GET /api/attendance], lines 188-244. *)
Definition get_attendance (q : query_outcome) : http_response :=
  match q with
  | Rows rows =>
      mkResponse 200 (JObj [("success", JBool true);
                            ("records", JArr rows);
                            ("count", JNum (Z.of_nat (List.length rows)))])
  | Rejected _ => failure 500 "Failed to fetch attendance records"
  end.

(** [GET /api/students], lines 247-284. *)
Definition get_students (q : query_outcome) : http_response :=
  match q with
  | Rows rows => mkResponse 200 (JObj [("success", JBool true); ("students", JArr rows)])
  | Rejected _ => failure 500 "Failed to fetch students"
  end.

(** [POST /api/init-db], lines 287-368. *)
Definition init_db (q : query_outcome) : http_response :=
  match q with
  | Rows _ =>
      mkResponse 200 (JObj [("success", JBool true);
                            ("message", JStr "Database initialized successfully")])
  | Rejected _ => failure 500 "Failed to initialize database"
  end.

(** The error-handling middleware, lines 371-374. *)
Definition internal_server_error : http_response :=
  failure 500 "Internal server error".

(** The catch-all of lines 377-379. *)
Definition endpoint_not_found : http_response :=
  failure 404 "Endpoint not found".

(** A request as the application sees it, with what its handler needs to
    answer. *)
Inductive api_call :=
| GetHealth
| GetSections (q : query_outcome)
| PostVerifyAttendance (d : db) (body : verify_body)
| PostAddStudent (env : interference) (d : db) (body : enroll_body)
| GetAttendance (q : query_outcome)
| GetStudents (q : query_outcome)
| PostInitDb (q : query_outcome)
| UnhandledError
| UnknownRoute.

Definition respond_to (c : api_call) : http_response :=
  match c with
  | GetHealth => health
  | GetSections q => get_sections q
  | PostVerifyAttendance d body => render_verify (fst (fst (verify_attendance d body)))
  | PostAddStudent env d body => render_enroll (fst (add_student env d body))
  | GetAttendance q => get_attendance q
  | GetStudents q => get_students q
  | PostInitDb q => init_db q
  | UnhandledError => internal_server_error
  | UnknownRoute => endpoint_not_found
  end.

Fixpoint lookup_field (k : string) (fs : list (string * json)) : option json :=
  match fs with
  | [] => None
  | (k', v) :: rest => if (k' =? k)%string then Some v else lookup_field k rest
  end.

Definition get_field (k : string) (j : json) : option json :=
  match j with
  | JObj fs => lookup_field k fs
  | _ => None
  end.

(** The payload has a [success] member and it is a boolean. *)
Definition success_flag (r : http_response) : option bool :=
  match get_field "success" (payload r) with
  | Some (JBool b) => Some b
  | _ => None
  end.

(** The payload has an [error] member and it is a string. *)
Definition error_string (r : http_response) : option string :=
  match get_field "error" (payload r) with
  | Some (JStr e) => Some e
  | _ => None
  end.

(* ===================================================================== *)
(** ** Notions used in the statements *)
(* ===================================================================== *)

(** The lookup's [WHERE] clause on a person. *)
Definition matches (tags : list string) (p : person) : bool :=
  includes tags (rfid_tag p) && role_eqb (person_role p) student.

Definition row_of (p : person) (s : option string) : student_row :=
  mkRow (person_id p) (name p) (rfid_tag p) (id_number p) s.

(** The roster has an enrolled student carrying tag [t]. *)
Definition enrolled_student (d : db) (t : string) : bool :=
  existsb (fun p => (rfid_tag p =? t)%string && role_eqb (person_role p) student)
          (persons d).

Definition links_of_person (d : db) (p : person) : list student_section :=
  filter (fun l => ss_person_id l =? person_id p) (student_sections d).

(** Attendance events recorded for person [pid]. *)
Definition events_of (d : db) (pid : Z) : nat :=
  count_occ Z.eq_dec (map a_person_id (attendance d)) pid.

(** Every person comes out of the join as exactly one row. *)
Definition single_row (d : db) : Prop :=
  forall p, In p (persons d) -> exists s, joined_sections d p = [s].

(** All four fields of the body pass the handler's [!field] tests. *)
Definition valid_body (body : enroll_body) : bool :=
  truthy_field (body_name body) && truthy_field (body_rfid_tag body)
  && truthy_field (body_section body) && truthy_field (body_id_number body).

(** The client right after the tag pre-check, and after the id pre-check. *)
Definition tag_check_state (env : interference) (d : db) (body : enroll_body) : client_state :=
  issue env (SELECT_person_by_rfid_tag (field (body_rfid_tag body)))
        (begin_stmt env (mkClient d None [PoolConnect])).

Definition id_check_state (env : interference) (d : db) (body : enroll_body) : client_state :=
  issue env (SELECT_person_by_id_number (field (body_id_number body)))
        (tag_check_state env d body).

Definition tag_taken (body : enroll_body) (ps : list person) : bool :=
  existsb (fun p => (rfid_tag p =? field (body_rfid_tag body))%string) ps.

Definition id_number_taken (body : enroll_body) (ps : list person) : bool :=
  existsb (fun p => match id_number p with
                    | Some i => (i =? field (body_id_number body))%string
                    | None => false
                    end) ps.

(** Another enrollment that runs to completion just before the statement
    at position [k] of this handler's log. *)
Definition rival (k : nat) (other : enroll_body) : interference :=
  fun n d => if (n =? k)%nat then committed (snd (add_student quiet d other)) else d.

(** The state an outcome carries. *)
Definition state_of {A} (o : outcome A) : client_state :=
  match o with
  | Value _ st | Thrown _ st | Responded _ st => st
  end.

(** [d'] has the rows of [d]; its sequences may have advanced. *)
Definition same_rows (d d' : db) : Prop :=
  persons d' = persons d /\ sections d' = sections d
  /\ student_sections d' = student_sections d /\ classrooms d' = classrooms d
  /\ attendance d' = attendance d
  /\ person_id_seq d <= person_id_seq d' /\ section_id_seq d <= section_id_seq d'
  /\ attendance_id_seq d <= attendance_id_seq d'.

(** The constraints of the schema on the rows, every person linked to at
    most one section, and the sequences ahead of the ids in use. *)
Record store_ok (d : db) : Prop := mkStoreOk {
  persons_key : NoDup (map person_id (persons d));
  tags_key : NoDup (map rfid_tag (persons d));
  sections_key : NoDup (map section_id (sections d));
  links_fk : forall l, In l (student_sections d) ->
                       existsb (fun p => person_id p =? ss_person_id l) (persons d) = true;
  one_link : forall p, In p (persons d) -> (List.length (links_of_person d p) <= 1)%nat;
  persons_seq : forall p, In p (persons d) -> person_id p < person_id_seq d;
  sections_seq : forall s, In s (sections d) -> section_id s < section_id_seq d;
  attendance_seq : forall a, In a (attendance d) -> attendance_id a < attendance_id_seq d
}.

(** The store after a committed enrollment: the new person, its link, the
    section row if one was created, and the sequences that were used. *)
Definition enrolled_store (d : db) (body : enroll_body) (sid : Z) (added : list section) : db :=
  mkDb (persons d ++ [mkPerson (person_id_seq d) (field (body_name body))
                               (field (body_rfid_tag body)) student
                               (Some (field (body_id_number body)))])
       (sections d ++ added)
       (student_sections d ++ [mkLink (person_id_seq d) sid])
       (classrooms d) (attendance d)
       (person_id_seq d + 1)
       (section_id_seq d + Z.of_nat (List.length added))
       (attendance_id_seq d).

(** The section the handler resolves: the first row with the name, or a
    new row numbered by the sequence. *)
Definition resolved_section (d : db) (body : enroll_body) (sid : Z) (added : list section) : Prop :=
  match filter (fun s => (section_name s =? field (body_section body))%string) (sections d) with
  | [] => sid = section_id_seq d /\ added = [mkSection sid (field (body_section body))]
  | s0 :: _ => sid = section_id s0 /\ added = []
  end.

(** The fields fit the column widths of the schema. *)
Definition fits_columns (body : enroll_body) : Prop :=
  (String.length (field (body_name body)) <= 100)%nat
  /\ (String.length (field (body_rfid_tag body)) <= 100)%nat
  /\ (String.length (field (body_id_number body)) <= 20)%nat
  /\ (String.length (field (body_section body)) <= 50)%nat.

(* ===================================================================== *)
(** ** Sample stores and requests *)
(* ===================================================================== *)

(** The store right after [POST /api/init-db] on an empty database: the
    default classroom and the six default sections. *)
Definition fresh_store : db :=
  mkDb []
       [mkSection 1 "CS-A"; mkSection 2 "CS-B"; mkSection 3 "EE-A";
        mkSection 4 "EE-B"; mkSection 5 "ME-A"; mkSection 6 "ME-B"]
       []
       [mkClassroom 1 "Default Room"]
       []
       1 7 1.

Definition alice_body : enroll_body :=
  mkEnrollBody (Some "Alice") (Some "RFID1") (Some "CS-A") (Some "S001").

(** The store after Alice has been enrolled through the API. *)
Definition store_alice : db :=
  committed (snd (add_student quiet fresh_store alice_body)).

(** The same roster with Alice linked to a second section, which the
    composite key of [student_sections] allows. *)
Definition store_two_links : db :=
  mkDb (persons store_alice) (sections store_alice)
       (student_sections store_alice ++ [mkLink 1 2])
       (classrooms store_alice) (attendance store_alice)
       (person_id_seq store_alice) (section_id_seq store_alice)
       (attendance_id_seq store_alice).

Definition alice_present : verified_student :=
  mkVerified "Alice" "CS-A" "RFID1" (Some "S001") "Present".

Definition scan_body : verify_body := mkVerifyBody (JsArray ["RFID1"; "RFID9"]) None.

Definition scan_result : verify_result :=
  mkVerifyResult 2 [alice_present] ["RFID9"] "1 students verified, 1 unrecognized tags".

(** The store after Alice's tag has been scanned once. *)
Definition store_scanned : db := snd (fst (verify_attendance store_alice scan_body)).

Definition bob_body : enroll_body :=
  mkEnrollBody (Some "Bob") (Some "RFID2") (Some "CS-B") (Some "S002").
Definition same_tag_body : enroll_body :=
  mkEnrollBody (Some "Eve") (Some "RFID2") (Some "CS-A") (Some "S009").
Definition same_id_body : enroll_body :=
  mkEnrollBody (Some "Eve") (Some "RFID8") (Some "CS-A") (Some "S002").
Definition carol_body : enroll_body :=
  mkEnrollBody (Some "Carol") (Some "RFID3") (Some "MATH-1") (Some "S003").
Definition dave_body : enroll_body :=
  mkEnrollBody (Some "Dave") (Some "RFID4") (Some "MATH-1") (Some "S004").

(** The stores the API can build: from the bootstrapped store, by
    enrollments and verifications handled one after the other. *)
Inductive reachable : db -> Prop :=
| reach_init : reachable fresh_store
| reach_enroll d body :
    reachable d -> reachable (committed (snd (add_student quiet d body)))
| reach_verify d body :
    reachable d -> reachable (snd (fst (verify_attendance d body))).

Definition classroom_exists (d : db) (cid : Z) : bool :=
  existsb (fun c => classroom_id c =? cid) (classrooms d).

(** A field of the person row is longer than its column. *)
Definition person_overflow (body : enroll_body) : bool :=
  (100 <? String.length (field (body_name body)))%nat
  || (100 <? String.length (field (body_rfid_tag body)))%nat
  || (20 <? String.length (field (body_id_number body)))%nat.

(** The part of a value that does not fit a column of width [n]. *)
Fixpoint string_drop (n : nat) (s : string) : string :=
  match n, s with
  | O, _ => s
  | S k, String _ rest => string_drop k rest
  | S _, EmptyString => EmptyString
  end.

Fixpoint all_spaces (s : string) : bool :=
  match s with
  | EmptyString => true
  | String c rest => (c =? " ")%char && all_spaces rest
  end.

(** The value runs past a column of width [n] with a character that is
    not a space: PostgreSQL refuses it with 22001 (it would keep, cut to
    the width, a value whose excess is spaces only). *)
Definition text_beyond (n : nat) (s : string) : bool :=
  negb (all_spaces (string_drop n s)).

(** The name, the tag or the id number has text beyond its column. *)
Definition person_text_overflow (body : enroll_body) : bool :=
  text_beyond 100 (field (body_name body))
  || text_beyond 100 (field (body_rfid_tag body))
  || text_beyond 20 (field (body_id_number body)).

(** The transaction, if one is open, holds no row. *)
Definition nothing_pending (st : client_state) : Prop :=
  match pending st with
  | Some t => t = empty_txn
  | None => True
  end.

(** What has been sent when both duplicate checks have passed. *)
Definition checked_log (body : enroll_body) : list event :=
  [PoolConnect; Query BEGIN;
   Query (SELECT_person_by_rfid_tag (field (body_rfid_tag body)));
   Query (SELECT_person_by_id_number (field (body_id_number body)))].

(** The id numbers in use; a null id number stands for none. *)
Definition id_numbers (d : db) : list string :=
  flat_map (fun p => match id_number p with
                     | Some i => [i]
                     | None => []
                     end) (persons d).

(** The store satisfies the schema and the sequences are ahead
    ([store_ok]), and section names and id numbers are unique as well. *)
Definition well_formed (d : db) : Prop :=
  store_ok d /\ NoDup (map section_name (sections d)) /\ NoDup (id_numbers d).

(* ===================================================================== *)
(** ** GET /api/attendance: the query text and its parameters *)
(* ===================================================================== *)

(** The template literal of lines 192-207. *)
Definition attendance_select : string :=
"
      SELECT 
        a.attendance_id,
        a.timestamp,
        p.name,
        p.id_number,
        p.rfid_tag,
        s.section_name,
        c.room_number
      FROM attendance a
      JOIN persons p ON a.person_id = p.person_id
      LEFT JOIN student_sections ss ON p.person_id = ss.person_id
      LEFT JOIN sections s ON ss.section_id = s.section_id
      LEFT JOIN classrooms c ON a.classroom_id = c.classroom_id
      WHERE 1=1
    ".

(** The state of the builder: [query], [params] and [paramCount]. *)
Record builder := mkBuilder {
  b_query : string;
  b_params : list string;
  b_count : nat
}.

(** [if (v) { query += ` AND col = $${paramCount}`; params.push(v);
    paramCount++; }] for a value of the query string. *)
Definition add_filter (col : string) (v : option string) (b : builder) : builder :=
  if truthy_field v then
    mkBuilder (b_query b ++ " AND " ++ col ++ " = $" ++ decimal (b_count b))
              (b_params b ++ [field v])
              (S (b_count b))
  else b.

(** Lines 190-230: the text sent to [pool.query] and its parameters, from
    the [date], [section_name] and [classroom_id] of the query string. *)
Definition attendance_query (date section_name classroom_id : option string)
  : string * list string :=
  let b := mkBuilder attendance_select [] 1 in
  let b := add_filter "DATE(a.timestamp)" date b in
  let b := add_filter "s.section_name" section_name b in
  let b := add_filter "a.classroom_id" classroom_id b in
  (b_query b ++ " ORDER BY a.timestamp DESC", b_params b).

(** The filters that are present, in the order the handler looks at
    them: column and value. *)
Definition attendance_filters (date section_name classroom_id : option string)
  : list (string * string) :=
  map (fun cv => (fst cv, field (snd cv)))
      (filter (fun cv => truthy_field (snd cv))
              [("DATE(a.timestamp)", date); ("s.section_name", section_name);
               ("a.classroom_id", classroom_id)]).

(** The conditions for a list of columns, the first one with placeholder
    [$k], the next with [$(k+1)], and so on. *)
Fixpoint numbered_conditions (k : nat) (cols : list string) : string :=
  match cols with
  | [] => ""
  | col :: rest => " AND " ++ col ++ " = $" ++ decimal k ++ numbered_conditions (S k) rest
  end.

(* ===================================================================== *)
(** ** POST /api/init-db: the bootstrap script *)
(* ===================================================================== *)

(** The store together with the sequence of [classrooms.classroom_id],
    which only the bootstrap uses. *)
Record database := mkDatabase {
  tables : db;
  classroom_id_seq : Z
}.

Definition default_room : string := "Default Room".

(** [ARRAY['CS-A', 'CS-B', 'EE-A', 'EE-B', 'ME-A', 'ME-B']] *)
Definition default_section_names : list string :=
  ["CS-A"; "CS-B"; "EE-A"; "EE-B"; "ME-A"; "ME-B"].

(** Rows for a list of names, numbered by the sequence from [next] on. *)
Fixpoint number_sections (next : Z) (names : list string) : list section :=
  match names with
  | [] => []
  | n :: rest => mkSection next n :: number_sections (next + 1) rest
  end.

Definition set_classrooms (d : db) (cs : list classroom) : db :=
  mkDb (persons d) (sections d) (student_sections d) cs (attendance d)
       (person_id_seq d) (section_id_seq d) (attendance_id_seq d).

Definition seed_sections (d : db) (names : list string) : db :=
  mkDb (persons d) (sections d ++ number_sections (section_id_seq d) names)
       (student_sections d) (classrooms d) (attendance d)
       (person_id_seq d) (section_id_seq d + Z.of_nat (List.length names))
       (attendance_id_seq d).

(** The script of lines 290-355, sent as one query and so run as one
    transaction.  The [CREATE TABLE IF NOT EXISTS] statements leave
    existing tables alone.  The default classroom is inserted unless a
    classroom with that room number exists; the default sections are
    inserted only when the sections table has no row at all.  A failed
    insert undoes the whole script, apart from the sequence. *)
Definition init_db_script (D : database) : database * option pg_error :=
  let d := tables D in
  if existsb (fun c => (room_number c =? default_room)%string) (classrooms d) then
    match sections d with
    | [] => (mkDatabase (seed_sections d default_section_names) (classroom_id_seq D), None)
    | _ :: _ => (D, None)
    end
  else
    let id := classroom_id_seq D in
    if existsb (fun c => classroom_id c =? id) (classrooms d) then
      (mkDatabase d (id + 1), Some (unique_violation "classrooms_pkey"))
    else
      let d1 := set_classrooms d (classrooms d ++ [mkClassroom id default_room]) in
      match sections d with
      | [] => (mkDatabase (seed_sections d1 default_section_names) (id + 1), None)
      | _ :: _ => (mkDatabase d1 (id + 1), None)
      end.

(** The handler of lines 287-368. *)
Definition post_init_db (D : database) : http_response * database :=
  match init_db_script D with
  | (D', None) => (init_db (Rows []), D')
  | (D', Some e) => (init_db (Rejected e), D')
  end.

(** A database whose tables have just been created. *)
Definition empty_database : database :=
  mkDatabase (mkDb [] [] [] [] [] 1 1 1) 1.

(* ===================================================================== *)
(** ** GET /api/sections and GET /api/students *)
(* ===================================================================== *)

(** [ORDER BY] on a text column.  The order of text is the collation of
    the database, which server.js does not choose: it is the parameter
    [leb].  Rows with equal keys keep the order they are read in. *)
Fixpoint insert_by {A} (leb : string -> string -> bool) (key : A -> string)
                   (x : A) (l : list A) : list A :=
  match l with
  | [] => [x]
  | y :: rest => if leb (key x) (key y) then x :: l else y :: insert_by leb key x rest
  end.

Definition order_by {A} (leb : string -> string -> bool) (key : A -> string)
                    (l : list A) : list A :=
  fold_right (insert_by leb key) [] l.

(** [SELECT * FROM sections ORDER BY section_name] *)
Definition select_sections (leb : string -> string -> bool) (d : db) : list section :=
  order_by leb section_name (sections d).

Definition json_of_section (s : section) : json :=
  JObj [("section_id", JNum (section_id s)); ("section_name", JStr (section_name s))].

(** The handler of lines 37-45 on a store that answers. *)
Definition get_sections_on (leb : string -> string -> bool) (d : db) : http_response :=
  get_sections (Rows (map json_of_section (select_sections leb d))).

(** [WHERE p.role = 'student'], and [AND s.section_name = $1] when the
    query string has a non-empty [section_name] (lines 261-269); a null
    section name equals nothing. *)
Definition students_where (section_name : option string) (r : person * option string) : bool :=
  role_eqb (person_role (fst r)) student
  && (if truthy_field section_name then
        match snd r with
        | Some n => (n =? field section_name)%string
        | None => false
        end
      else true).

(** The query of lines 251-271: the join of the verification lookup,
    filtered and ordered by name. *)
Definition select_students (leb : string -> string -> bool) (d : db)
                           (section_name : option string) : list student_row :=
  order_by leb r_name
           (map (fun r => row_of (fst r) (snd r))
                (filter (students_where section_name) (persons_join_sections d))).

Definition json_of_student_row (r : student_row) : json :=
  JObj [("person_id", JNum (r_person_id r));
        ("name", JStr (r_name r));
        ("rfid_tag", JStr (r_rfid_tag r));
        ("id_number", json_of_option (r_id_number r));
        ("section_name", json_of_option (r_section_name r))].

(** The handler of lines 247-284 on a store that answers. *)
Definition get_students_on (leb : string -> string -> bool) (d : db)
                           (section_name : option string) : http_response :=
  get_students (Rows (map json_of_student_row (select_students leb d section_name))).

(** Alice enrolled but with her section link gone. *)
Definition store_unlinked : db :=
  mkDb (persons store_alice) (sections store_alice) []
       (classrooms store_alice) (attendance store_alice)
       (person_id_seq store_alice) (section_id_seq store_alice)
       (attendance_id_seq store_alice).

(** A request under a new section whose id number has 26 characters. *)
Definition long_id_body : enroll_body :=
  mkEnrollBody (Some "Carol") (Some "RFID3") (Some "MATH-1")
               (Some "S003-0123456789-0123456789").

Definition same_id_as_alice_body : enroll_body :=
  mkEnrollBody (Some "Mallory") (Some "RFID6") (Some "CS-A") (Some "S001").

(* ===================================================================== *)
(** ** Verification: the lookup, the inserts and the response *)
(* ===================================================================== *)

Section ListFacts.
Context {A B : Type}.

Lemma filter_flat_map (f : B -> bool) (g : A -> list B) (l : list A) :
  filter f (flat_map g l) = flat_map (fun x => filter f (g x)) l.
Proof.
  induction l as [|x l IH]; simpl; [reflexivity|].
  now rewrite filter_app, IH.
Qed.

Lemma filter_none (f : A -> bool) (l : list A) :
  (forall x, In x l -> f x = false) -> filter f l = [].
Proof.
  induction l as [|x l IH]; simpl; intros H; [reflexivity|].
  rewrite (H x) by auto. apply IH. intros y Hy. apply H. auto.
Qed.

Lemma NoDup_map_filter (f : A -> B) (g : A -> bool) (l : list A) :
  NoDup (map f l) -> NoDup (map f (filter g l)).
Proof.
  induction l as [|x l IH]; simpl; intros H; [constructor|].
  inversion H as [|? ? Hn Hd]; subst.
  destruct (g x); simpl; [|now apply IH].
  constructor; [|now apply IH].
  intros Hin. apply Hn. apply in_map_iff in Hin as (y & Hy & Hin).
  apply filter_In in Hin as [Hin _]. apply in_map_iff. eauto.
Qed.
End ListFacts.

Lemma includes_In (l : list string) (s : string) : includes l s = true <-> In s l.
Proof.
  unfold includes. rewrite existsb_exists. split.
  - intros (x & Hin & Heq). apply String.eqb_eq in Heq. now subst.
  - intros Hin. exists s. split; [assumption | apply String.eqb_refl].
Qed.

Lemma includes_false (l : list string) (s : string) : includes l s = false <-> ~ In s l.
Proof.
  rewrite <- includes_In. destruct (includes l s); split; congruence.
Qed.

Lemma role_eqb_eq (a b : role) : role_eqb a b = true <-> a = b.
Proof. destruct a, b; simpl; split; congruence. Qed.

(** A key that is unique in a table selects at most one row. *)
Lemma filter_key_le1 {A} (key : A -> Z) (k : Z) (l : list A) :
  NoDup (map key l) -> (List.length (filter (fun x => (key x =? k)%Z) l) <= 1)%nat.
Proof.
  induction l as [|x l IH]; simpl; intros H; [lia|].
  inversion H as [|? ? Hn Hd]; subst.
  destruct (Z.eqb_spec (key x) k) as [E|E]; [|now apply IH].
  simpl. rewrite filter_none; [simpl; lia|].
  intros y Hy. apply Z.eqb_neq. intros E'. apply Hn.
  apply in_map_iff. exists y. split; [congruence | assumption].
Qed.

(** *** The lookup query *)

Lemma links_of_nonempty d p : links_of d p <> [].
Proof.
  unfold links_of. destruct (filter _ _); simpl; discriminate.
Qed.

Lemma section_names_of_nonempty d l : section_names_of d l <> [].
Proof.
  destruct l as [l|]; simpl; [|discriminate].
  destruct (filter _ _); simpl; discriminate.
Qed.

Lemma joined_sections_nonempty d p : joined_sections d p <> [].
Proof.
  unfold joined_sections.
  destruct (links_of d p) as [|l ls] eqn:E; [now apply links_of_nonempty in E|].
  simpl. destruct (section_names_of d l) eqn:E'; [now apply section_names_of_nonempty in E'|].
  discriminate.
Qed.

Lemma filter_where_pair tags p (js : list (option string)) :
  map (fun r => mkRow (person_id (fst r)) (name (fst r)) (rfid_tag (fst r))
                      (id_number (fst r)) (snd r))
      (filter (where_student_tag tags) (map (pair p) js))
  = if matches tags p then map (row_of p) js else [].
Proof.
  unfold where_student_tag, matches.
  induction js as [|s js IH]; simpl.
  - now destruct (_ && _).
  - destruct (includes tags (rfid_tag p) && role_eqb (person_role p) student) eqn:E;
      simpl in *; rewrite IH; reflexivity.
Qed.

Lemma select_students_by_tags_flat d tags :
  select_students_by_tags d tags
  = flat_map (fun p => if matches tags p then map (row_of p) (joined_sections d p) else [])
             (persons d).
Proof.
  unfold select_students_by_tags, persons_join_sections.
  generalize (persons d) as l.
  induction l as [|p l IH]; simpl; [reflexivity|].
  now rewrite filter_app, map_app, IH, filter_where_pair.
Qed.

(** A token is among the tags found exactly when it was scanned and an
    enrolled student carries it. *)
Lemma found_tag_iff d tags t :
  In t (map r_rfid_tag (select_students_by_tags d tags))
  <-> In t tags /\ enrolled_student d t = true.
Proof.
  rewrite select_students_by_tags_flat. unfold enrolled_student.
  rewrite in_map_iff, existsb_exists. split.
  - intros (r & Ht & Hin). apply in_flat_map in Hin as (p & Hp & Hin).
    destruct (matches tags p) eqn:Em; [|contradiction].
    apply in_map_iff in Hin as (s & <- & _). simpl in Ht. subst t.
    unfold matches in Em. apply andb_true_iff in Em as [Ei Er].
    split; [now apply includes_In|].
    exists p. split; [assumption|]. now rewrite String.eqb_refl, Er.
  - intros (Hin & p & Hp & Hc). apply andb_true_iff in Hc as [Et Er].
    apply String.eqb_eq in Et. subst t.
    destruct (joined_sections d p) as [|s js] eqn:Ej;
      [now apply joined_sections_nonempty in Ej|].
    exists (row_of p s). split; [reflexivity|].
    apply in_flat_map. exists p. split; [assumption|].
    unfold matches. apply includes_In in Hin. rewrite Hin, Er, Ej. simpl. now left.
Qed.

Lemma includes_found d tags t :
  In t tags ->
  includes (map r_rfid_tag (select_students_by_tags d tags)) t = enrolled_student d t.
Proof.
  intros Hin. apply eq_true_iff_eq. rewrite includes_In, found_tag_iff. tauto.
Qed.

(** *** Recording attendance *)

Lemma insert_attendance_frame d pid cid :
  let d' := fst (insert_attendance d pid cid) in
  persons d' = persons d /\ sections d' = sections d
  /\ student_sections d' = student_sections d /\ classrooms d' = classrooms d
  /\ person_id_seq d' = person_id_seq d /\ section_id_seq d' = section_id_seq d.
Proof.
  unfold insert_attendance. destruct (_ && _); simpl; tauto.
Qed.

Lemma insert_attendance_rows d pid cid :
  attendance (fst (insert_attendance d pid cid))
  = (attendance d
     ++ if snd (insert_attendance d pid cid)
        then [mkAttendance (attendance_id_seq d) pid cid] else [])%list.
Proof.
  unfold insert_attendance. destruct (_ && _); simpl; [reflexivity|].
  now rewrite app_nil_r.
Qed.

(** What a batch of inserts leaves behind: the other tables as they were,
    and new attendance rows, all at the given classroom, at most one per
    lookup row and exactly one per row when every insert went through. *)
Lemma insert_attendance_all_spec rows : forall d cid,
  let d' := fst (insert_attendance_all d rows cid) in
  let ok := snd (insert_attendance_all d rows cid) in
  persons d' = persons d /\ sections d' = sections d
  /\ student_sections d' = student_sections d /\ classrooms d' = classrooms d
  /\ person_id_seq d' = person_id_seq d /\ section_id_seq d' = section_id_seq d
  /\ exists new,
       attendance d' = (attendance d ++ new)%list
       /\ Forall (fun a => a_classroom_id a = cid) new
       /\ (forall pid, (count_occ Z.eq_dec (map a_person_id new) pid
                        <= count_occ Z.eq_dec (map r_person_id rows) pid)%nat)
       /\ (ok = true -> map a_person_id new = map r_person_id rows).
Proof.
  induction rows as [|r rows IH]; intros d cid; simpl.
  - repeat split. exists []. rewrite app_nil_r. repeat split; auto.
  - pose proof (insert_attendance_frame d (r_person_id r) cid) as F.
    pose proof (insert_attendance_rows d (r_person_id r) cid) as R.
    destruct (insert_attendance d (r_person_id r) cid) as [d1 ok1]. simpl in F, R.
    specialize (IH d1 cid).
    destruct (insert_attendance_all d1 rows cid) as [d2 ok2]. simpl in IH |- *.
    destruct F as (F1 & F2 & F3 & F4 & F5 & F6).
    destruct IH as (I1 & I2 & I3 & I4 & I5 & I6 & new & Hnew & Hcls & Hcnt & Hok).
    repeat split; try congruence.
    exists ((if ok1 then [mkAttendance (attendance_id_seq d) (r_person_id r) cid] else [])
            ++ new)%list.
    repeat split.
    + now rewrite Hnew, R, app_assoc.
    + apply Forall_app. split; [|assumption].
      destruct ok1; constructor; [reflexivity | constructor].
    + intros pid. specialize (Hcnt pid). rewrite map_app, count_occ_app.
      destruct ok1; simpl; destruct (Z.eq_dec (r_person_id r) pid); lia.
    + intros Hb. apply andb_true_iff in Hb as [-> Hb]. simpl. f_equal. auto.
Qed.

(** The inserts all go through when the classroom exists and the
    attendance sequence is ahead of the ids in the table. *)
Lemma insert_attendance_all_ok rows : forall d cid,
  existsb (fun c => classroom_id c =? cid) (classrooms d) = true ->
  (forall a, In a (attendance d) -> attendance_id a < attendance_id_seq d) ->
  (forall r, In r rows -> existsb (fun p => person_id p =? r_person_id r) (persons d) = true) ->
  snd (insert_attendance_all d rows cid) = true.
Proof.
  induction rows as [|r rows IH]; intros d cid Hc Hseq Hp; simpl; [reflexivity|].
  destruct (insert_attendance d (r_person_id r) cid) as [d1 ok1] eqn:E1.
  specialize (IH d1 cid).
  destruct (insert_attendance_all d1 rows cid) as [d2 ok2]. simpl in *.
  unfold insert_attendance in E1. rewrite Hc, (Hp r) in E1 by auto.
  assert (Hfresh : existsb (fun a => attendance_id a =? attendance_id_seq d) (attendance d) = false).
  { apply not_true_is_false. intros H. apply existsb_exists in H as (a & Ha & Heq).
    apply Z.eqb_eq in Heq. specialize (Hseq a Ha). lia. }
  rewrite Hfresh in E1. simpl in E1. inversion E1; subst. simpl.
  apply IH; simpl; auto.
  intros a Ha. apply in_app_or in Ha as [Ha|[<-|[]]]; simpl; [specialize (Hseq a Ha)|]; lia.
Qed.

Lemma select_students_person_exists d tags r :
  In r (select_students_by_tags d tags) ->
  existsb (fun p => person_id p =? r_person_id r) (persons d) = true.
Proof.
  rewrite select_students_by_tags_flat. intros Hin.
  apply in_flat_map in Hin as (p & Hp & Hin).
  destruct (matches tags p); [|contradiction].
  apply in_map_iff in Hin as (s & <- & _). simpl.
  apply existsb_exists. exists p. split; [assumption | apply Z.eqb_refl].
Qed.

(** *** The handler *)

Lemma verify_attendance_ok_inv d body r d' lg :
  verify_attendance d body = (VerifyOk r, d', lg) ->
  exists tags,
    body_rfid_tags body = JsArray tags
    /\ total_scans r = List.length tags
    /\ verified_students r = map present (select_students_by_tags d tags)
    /\ unrecognized r
       = filter (fun t => negb (includes (map r_rfid_tag (select_students_by_tags d tags)) t))
                tags
    /\ insert_attendance_all d (select_students_by_tags d tags) (classroom_of body)
       = (d', true).
Proof.
  unfold verify_attendance, classroom_of. destruct body as [v c]. simpl.
  destruct v as [| |b|z|s|tags|]; cbn -[summary]; rewrite ?orb_true_r; try discriminate.
  destruct (insert_attendance_all d (select_students_by_tags d tags) _) as [d2 ok] eqn:E.
  destruct ok; intros H; inversion H; subst. exists tags. repeat split. exact E.
Qed.

(** A well-formed batch is answered with the lists as soon as the
    classroom exists and the attendance sequence is ahead of the table. *)
Lemma verify_attendance_succeeds d tags c :
  existsb (fun k => classroom_id k =? classroom_of (mkVerifyBody (JsArray tags) c))
          (classrooms d) = true ->
  (forall a, In a (attendance d) -> attendance_id a < attendance_id_seq d) ->
  exists r d' lg, verify_attendance d (mkVerifyBody (JsArray tags) c) = (VerifyOk r, d', lg).
Proof.
  intros Hc Hseq. unfold verify_attendance. simpl.
  pose proof (insert_attendance_all_ok (select_students_by_tags d tags) d _ Hc Hseq
                (select_students_person_exists d tags)) as Hok.
  unfold classroom_of in Hok. simpl in Hok.
  destruct (insert_attendance_all d (select_students_by_tags d tags) _) as [d2 ok].
  simpl in Hok. subst ok. eauto.
Qed.

(** *** One lookup row per person *)

Lemma joined_sections_single d p :
  NoDup (map section_id (sections d)) ->
  (List.length (links_of_person d p) <= 1)%nat ->
  exists s, joined_sections d p = [s].
Proof.
  intros Hs Hl. unfold joined_sections, links_of. fold (links_of_person d p).
  destruct (links_of_person d p) as [|l [|l' ls]]; simpl in *; [eauto | | lia].
  pose proof (filter_key_le1 section_id (ss_section_id l) (sections d) Hs) as Hk.
  destruct (filter _ (sections d)) as [|s [|s' ss]]; simpl in *; [eauto | eauto | lia].
Qed.

Lemma select_students_single d tags :
  single_row d ->
  map r_person_id (select_students_by_tags d tags)
    = map person_id (filter (matches tags) (persons d))
  /\ map r_rfid_tag (select_students_by_tags d tags)
    = map rfid_tag (filter (matches tags) (persons d)).
Proof.
  unfold single_row. rewrite select_students_by_tags_flat.
  generalize (persons d) as l.
  induction l as [|p l IH]; intros H; simpl; [split; reflexivity|].
  destruct IH as [IH1 IH2]; [intros q Hq; apply H; now right|].
  rewrite !map_app, IH1, IH2.
  destruct (matches tags p); simpl; [|split; reflexivity].
  destruct (H p) as [s ->]; [now left|]. split; reflexivity.
Qed.

Lemma in_matching_tags d tags t :
  In t (map rfid_tag (filter (matches tags) (persons d)))
  <-> In t (filter (enrolled_student d) tags).
Proof.
  rewrite in_map_iff, filter_In. unfold enrolled_student. rewrite existsb_exists. split.
  - intros (p & <- & Hp). apply filter_In in Hp as [Hp Hm].
    unfold matches in Hm. apply andb_true_iff in Hm as [Hi Hr].
    split; [now apply includes_In|].
    exists p. split; [assumption|]. now rewrite String.eqb_refl.
  - intros (Hin & p & Hp & Hc). apply andb_true_iff in Hc as [Ht Hr].
    apply String.eqb_eq in Ht. exists p. split; [assumption|].
    apply filter_In. split; [assumption|]. unfold matches.
    rewrite Hr, andb_true_r. apply includes_In. now rewrite Ht.
Qed.

(** Distinct tokens against distinct tags: as many students found as
    tokens that belong to a student. *)
Lemma matching_count d tags :
  NoDup tags -> NoDup (map rfid_tag (persons d)) ->
  List.length (filter (matches tags) (persons d))
  = List.length (filter (enrolled_student d) tags).
Proof.
  intros Ht Hp.
  rewrite <- (length_map rfid_tag).
  apply Permutation_length, NoDup_Permutation.
  - now apply NoDup_map_filter.
  - now apply NoDup_filter.
  - intros t. apply in_matching_tags.
Qed.

Lemma unrecognized_filter d tags :
  filter (fun t => negb (includes (map r_rfid_tag (select_students_by_tags d tags)) t)) tags
  = filter (fun t => negb (enrolled_student d t)) tags.
Proof.
  apply filter_ext_in. intros t Hin. now rewrite includes_found.
Qed.

Lemma verify_attendance_frame d body resp d' lg :
  verify_attendance d body = (resp, d', lg) ->
  persons d' = persons d /\ sections d' = sections d
  /\ student_sections d' = student_sections d /\ classrooms d' = classrooms d
  /\ exists new,
       attendance d' = (attendance d ++ new)%list
       /\ Forall (fun a => a_classroom_id a = classroom_of body) new
       /\ (forall pid,
            (count_occ Z.eq_dec (map a_person_id new) pid
             <= count_occ Z.eq_dec
                  (map r_person_id
                       (select_students_by_tags d (array_items (body_rfid_tags body))))
                  pid)%nat)
       /\ (forall r, resp = VerifyOk r ->
            map a_person_id new
            = map r_person_id
                  (select_students_by_tags d (array_items (body_rfid_tags body)))).
Proof.
  unfold verify_attendance.
  destruct (negb (truthy (body_rfid_tags body)) || negb (is_array (body_rfid_tags body))).
  - intros H. inversion H; subst. repeat split.
    exists []. rewrite app_nil_r. repeat split; auto.
    + intros pid. simpl. lia.
    + discriminate.
  - pose proof (insert_attendance_all_spec
                  (select_students_by_tags d (array_items (body_rfid_tags body)))
                  d (classroom_of body)) as S.
    destruct (insert_attendance_all d _ (classroom_of body)) as [d2 ok]. simpl in S.
    destruct S as (S1 & S2 & S3 & S4 & _ & _ & new & Hnew & Hcls & Hcnt & Hok).
    intros H. assert (d2 = d') by (destruct ok; now inversion H). subst d2.
    repeat split; try assumption.
    exists new. repeat split; try assumption.
    intros r ->. destruct ok; [auto | discriminate].
Qed.

Lemma events_of_app d d' new pid :
  attendance d' = (attendance d ++ new)%list ->
  events_of d' pid = (events_of d pid + count_occ Z.eq_dec (map a_person_id new) pid)%nat.
Proof.
  intros H. unfold events_of. now rewrite H, map_app, count_occ_app.
Qed.

Lemma count_person_rows d tags pid :
  NoDup (map person_id (persons d)) -> single_row d ->
  (count_occ Z.eq_dec (map r_person_id (select_students_by_tags d tags)) pid <= 1)%nat.
Proof.
  intros Hid Hs. destruct (select_students_single d tags Hs) as [-> _].
  apply NoDup_count_occ. now apply NoDup_map_filter.
Qed.

Lemma count_matched_person d tags p :
  NoDup (map person_id (persons d)) -> single_row d ->
  In p (persons d) -> matches tags p = true ->
  count_occ Z.eq_dec (map r_person_id (select_students_by_tags d tags)) (person_id p) = 1%nat.
Proof.
  intros Hid Hs Hp Hm.
  pose proof (count_person_rows d tags (person_id p) Hid Hs) as Hle.
  assert (Hin : In (person_id p) (map r_person_id (select_students_by_tags d tags))).
  { destruct (select_students_single d tags Hs) as [-> _].
    apply in_map. apply filter_In. now split. }
  apply (count_occ_In Z.eq_dec) in Hin. lia.
Qed.

(** *** Properties of the verification handler *)

(** The scenario of the specification: bootstrap, enroll Alice under
    CS-A, scan her tag and an unknown one. *)
Example end_to_end_scenario :
  persons store_alice = [mkPerson 1 "Alice" "RFID1" student (Some "S001")]
  /\ student_sections store_alice = [mkLink 1 1]
  /\ sections store_alice = sections fresh_store
  /\ verify_attendance store_alice scan_body
     = (VerifyOk scan_result, store_scanned,
        [Query (SELECT_students_by_tags ["RFID1"; "RFID9"]); Query (INSERT_attendance 1 1)])
  /\ attendance store_scanned = [mkAttendance 1 1 1].
Proof. repeat split. Qed.

(** C1, as stated, fails: a token scanned twice is counted twice in
    [total_scans] but its student is found once. *)
Lemma verify_counts_counterexample :
  exists r d' lg,
    verify_attendance store_alice (mkVerifyBody (JsArray ["RFID1"; "RFID1"]) None)
      = (VerifyOk r, d', lg)
    /\ (List.length (verified_students r) + List.length (unrecognized r))%nat
       <> total_scans r.
Proof.
  do 3 eexists. split; [vm_compute; reflexivity|]. vm_compute. discriminate.
Qed.

(** C1 (amended): in the response to a batch, every scanned token is
    either the tag of a student in [verified_students] or listed in
    [unrecognized], never both; the two lists together are as long as
    [total_scans] when no token is scanned twice and every person has at
    most one section link (tags and section ids being unique, as the
    schema has them). *)
Theorem verify_partition d tags c r d' lg :
  verify_attendance d (mkVerifyBody (JsArray tags) c) = (VerifyOk r, d', lg) ->
  (forall t, In t tags ->
     (In t (map vs_rfid_tag (verified_students r)) /\ ~ In t (unrecognized r))
     \/ (~ In t (map vs_rfid_tag (verified_students r)) /\ In t (unrecognized r)))
  /\ (NoDup tags ->
      NoDup (map rfid_tag (persons d)) ->
      NoDup (map section_id (sections d)) ->
      (forall p, In p (persons d) -> (List.length (links_of_person d p) <= 1)%nat) ->
      (List.length (verified_students r) + List.length (unrecognized r))%nat
      = total_scans r).
Proof.
  intros H. apply verify_attendance_ok_inv in H as (tags' & Eb & Et & Ev & Eu & _).
  simpl in Eb. inversion Eb; subst tags'. clear Eb.
  rewrite Ev, Eu, Et, map_map. simpl.
  change (fun x => r_rfid_tag x) with r_rfid_tag.
  split.
  - intros t Hin. rewrite filter_In.
    destruct (includes (map r_rfid_tag (select_students_by_tags d tags)) t) eqn:E.
    + left. split; [now apply includes_In|]. intros [_ Hf]. discriminate.
    + right. split; [now apply includes_false|]. now split.
  - intros Ht Hp Hs Hl.
    assert (Hrow : single_row d)
      by (intros p Hin; apply joined_sections_single; auto).
    rewrite length_map, unrecognized_filter.
    rewrite <- (length_map r_person_id).
    destruct (select_students_single d tags Hrow) as [-> _].
    rewrite length_map, matching_count by assumption.
    apply filter_length.
Qed.

(** Facts of the sample store, for the instances below. *)
Lemma store_alice_single_link p :
  In p (persons store_alice) -> (List.length (links_of_person store_alice p) <= 1)%nat.
Proof. intros [<-|[]]. vm_compute. lia. Qed.

Lemma NoDup_one {A} (x : A) : NoDup [x].
Proof. constructor; [intros [] | constructor]. Qed.

Lemma store_alice_section_ids : NoDup (map section_id (sections store_alice)).
Proof.
  exact (NoDup_nodup Z.eq_dec [1; 2; 3; 4; 5; 6]).
Qed.

(** [verify_partition] on the scan of Alice's tag and an unknown one. *)
Lemma verify_partition_witness :
  verify_attendance store_alice scan_body
    = (VerifyOk scan_result, store_scanned, snd (verify_attendance store_alice scan_body))
  /\ (forall t, In t ["RFID1"; "RFID9"] ->
        (In t (map vs_rfid_tag (verified_students scan_result))
         /\ ~ In t (unrecognized scan_result))
        \/ (~ In t (map vs_rfid_tag (verified_students scan_result))
            /\ In t (unrecognized scan_result)))
  /\ (List.length (verified_students scan_result)
      + List.length (unrecognized scan_result))%nat = total_scans scan_result.
Proof.
  assert (E : verify_attendance store_alice scan_body
              = (VerifyOk scan_result, store_scanned,
                 snd (verify_attendance store_alice scan_body))) by reflexivity.
  split; [exact E|].
  destruct (verify_partition _ _ _ _ _ _ E) as [Hp Hc].
  split; [exact Hp|]. apply Hc.
  - constructor; [intros [H|[]]; discriminate | apply NoDup_one].
  - apply NoDup_one.
  - apply store_alice_section_ids.
  - apply store_alice_single_link.
Defined.

(** C7: the [unrecognized] list of the response is the batch with the
    tokens of enrolled students removed, in the order scanned and with
    its repetitions. *)
Theorem verify_unrecognized d tags c r d' lg :
  verify_attendance d (mkVerifyBody (JsArray tags) c) = (VerifyOk r, d', lg) ->
  unrecognized r = filter (fun t => negb (enrolled_student d t)) tags.
Proof.
  intros H. apply verify_attendance_ok_inv in H as (tags' & Eb & _ & _ & Eu & _).
  simpl in Eb. inversion Eb; subst tags'. rewrite Eu. apply unrecognized_filter.
Qed.

(** [verify_unrecognized] on the scan of Alice's tag and an unknown one. *)
Lemma verify_unrecognized_witness :
  verify_attendance store_alice scan_body
    = (VerifyOk scan_result, store_scanned, snd (verify_attendance store_alice scan_body))
  /\ unrecognized scan_result
     = filter (fun t => negb (enrolled_student store_alice t)) ["RFID1"; "RFID9"].
Proof.
  assert (E : verify_attendance store_alice scan_body
              = (VerifyOk scan_result, store_scanned,
                 snd (verify_attendance store_alice scan_body))) by reflexivity.
  split; [exact E|]. exact (verify_unrecognized _ _ _ _ _ _ E).
Defined.

(** C6: a request whose [rfid_tags] is missing or is not an array is
    answered 400 'Invalid RFID tags array' with no query sent and the
    store as it was. *)
Theorem verify_rejects_non_array d body :
  is_array (body_rfid_tags body) = false ->
  verify_attendance d body = (VerifyInvalid, d, [])
  /\ render_verify VerifyInvalid = failure 400 "Invalid RFID tags array".
Proof.
  intros H. unfold verify_attendance. rewrite H, orb_true_r. split; reflexivity.
Qed.

(** [verify_rejects_non_array] on a body without [rfid_tags]. *)
Lemma verify_rejects_non_array_witness :
  is_array JsUndefined = false
  /\ verify_attendance store_alice (mkVerifyBody JsUndefined (Some 1))
     = (VerifyInvalid, store_alice, [])
  /\ render_verify VerifyInvalid = failure 400 "Invalid RFID tags array".
Proof.
  split; [reflexivity|].
  exact (verify_rejects_non_array store_alice (mkVerifyBody JsUndefined (Some 1)) eq_refl).
Defined.

Lemma select_no_tags d : select_students_by_tags d [] = [].
Proof.
  rewrite select_students_by_tags_flat.
  induction (persons d) as [|p l IH]; simpl; [reflexivity | exact IH].
Qed.

(** C10: an empty batch is answered with success, [total_scans] 0 and two
    empty lists, and writes nothing; a request without [classroom_id] is
    handled as one with [classroom_id] 1, and every attendance row it
    adds is at classroom 1, one for each student it reports. *)
Theorem verify_empty_batch_and_default_classroom :
  (forall d c,
     verify_attendance d (mkVerifyBody (JsArray []) c)
     = (VerifyOk (mkVerifyResult 0 [] [] "0 students verified, 0 unrecognized tags"),
        d, [Query (SELECT_students_by_tags [])]))
  /\ (forall d v,
        verify_attendance d (mkVerifyBody v None)
        = verify_attendance d (mkVerifyBody v (Some 1)))
  /\ (forall d v resp d' lg,
        verify_attendance d (mkVerifyBody v None) = (resp, d', lg) ->
        exists new,
          attendance d' = (attendance d ++ new)%list
          /\ Forall (fun a => a_classroom_id a = 1) new
          /\ (forall r, resp = VerifyOk r ->
                List.length new = List.length (verified_students r))).
Proof.
  split; [|split].
  - intros d c. unfold verify_attendance. cbn -[summary select_students_by_tags].
    rewrite select_no_tags. reflexivity.
  - reflexivity.
  - intros d v resp d' lg H.
    pose proof (verify_attendance_frame _ _ _ _ _ H)
      as (_ & _ & _ & _ & new & Hn & Hc & _ & Hok).
    exists new. repeat split; [assumption | exact Hc |].
    intros r ->. specialize (Hok r eq_refl).
    apply verify_attendance_ok_inv in H as (tags & Eb & _ & Ev & _).
    simpl in Eb. subst v. simpl in Hok.
    rewrite Ev, length_map, <- (length_map a_person_id), Hok. apply length_map.
Qed.

(** C2, as stated, fails: a student linked to two sections comes back as
    two lookup rows and gets two attendance rows in one call. *)
Lemma verify_two_links_counterexample :
  exists r d' lg,
    verify_attendance store_two_links (mkVerifyBody (JsArray ["RFID1"]) None)
      = (VerifyOk r, d', lg)
    /\ events_of store_two_links 1 = 0%nat
    /\ events_of d' 1 = 2%nat.
Proof.
  do 3 eexists. split; [vm_compute; reflexivity|]. split; reflexivity.
Qed.

Lemma single_row_frame d d' :
  persons d' = persons d -> sections d' = sections d ->
  student_sections d' = student_sections d ->
  forall tags, select_students_by_tags d' tags = select_students_by_tags d tags.
Proof.
  intros Hp Hs Hl tags.
  unfold select_students_by_tags, persons_join_sections, joined_sections, links_of,
    section_names_of.
  now rewrite Hp, Hs, Hl.
Qed.

(** C2 (amended): when every person has at most one section link (person
    and section ids being unique, as the schema has them), a verification
    call adds at most one attendance row for any person, whatever the
    batch and however often a tag is repeated in it; a successful call
    adds exactly one for each student whose tag is in the batch; and a
    second successful call with the same batch adds one more, nothing
    being deduplicated across calls. *)
Theorem verify_events_per_person d body resp d' lg :
  verify_attendance d body = (resp, d', lg) ->
  NoDup (map person_id (persons d)) ->
  NoDup (map section_id (sections d)) ->
  (forall p, In p (persons d) -> (List.length (links_of_person d p) <= 1)%nat) ->
  (forall pid, (events_of d' pid <= events_of d pid + 1)%nat)
  /\ (forall r p,
        resp = VerifyOk r -> In p (persons d) ->
        matches (array_items (body_rfid_tags body)) p = true ->
        events_of d' (person_id p) = (events_of d (person_id p) + 1)%nat
        /\ forall r2 d2 lg2,
             verify_attendance d' body = (VerifyOk r2, d2, lg2) ->
             events_of d2 (person_id p) = (events_of d (person_id p) + 2)%nat).
Proof.
  intros H Hid Hsec Hl.
  assert (Hrow : single_row d)
    by (intros p Hin; apply joined_sections_single; auto).
  pose proof (verify_attendance_frame _ _ _ _ _ H)
    as (Fp & Fs & Fl & _ & new & Hn & _ & Hcnt & Hok).
  split.
  - intros pid. rewrite (events_of_app _ _ _ _ Hn). specialize (Hcnt pid).
    pose proof (count_person_rows d (array_items (body_rfid_tags body)) pid Hid Hrow). lia.
  - intros r p -> Hp Hm.
    assert (E1 : events_of d' (person_id p) = (events_of d (person_id p) + 1)%nat).
    { rewrite (events_of_app _ _ _ _ Hn), (Hok r eq_refl).
      now rewrite count_matched_person. }
    split; [exact E1|].
    intros r2 d2 lg2 H2.
    pose proof (verify_attendance_frame _ _ _ _ _ H2)
      as (_ & _ & _ & _ & new2 & Hn2 & _ & _ & Hok2).
    rewrite (events_of_app _ _ _ _ Hn2), (Hok2 r2 eq_refl), E1.
    rewrite (single_row_frame d d' Fp Fs Fl).
    rewrite count_matched_person by assumption. lia.
Qed.

(** [verify_events_per_person] on two scans of Alice's tag in a row. *)
Lemma verify_events_per_person_witness :
  verify_attendance store_alice scan_body
    = (VerifyOk scan_result, store_scanned, snd (verify_attendance store_alice scan_body))
  /\ (forall pid, (events_of store_scanned pid <= events_of store_alice pid + 1)%nat)
  /\ events_of store_scanned 1 = (events_of store_alice 1 + 1)%nat
  /\ events_of (snd (fst (verify_attendance store_scanned scan_body))) 1
     = (events_of store_alice 1 + 2)%nat.
Proof.
  assert (E : verify_attendance store_alice scan_body
              = (VerifyOk scan_result, store_scanned,
                 snd (verify_attendance store_alice scan_body))) by reflexivity.
  split; [exact E|].
  destruct (verify_events_per_person _ _ _ _ _ E
              (NoDup_one _) store_alice_section_ids store_alice_single_link)
    as [Hle Hex].
  split; [exact Hle|].
  destruct (Hex scan_result (mkPerson 1 "Alice" "RFID1" student (Some "S001")) eq_refl
              (or_introl eq_refl) eq_refl) as [H1 H2].
  split; [exact H1|].
  exact (H2 scan_result _ (snd (verify_attendance store_scanned scan_body)) eq_refl).
Defined.

(* ===================================================================== *)
(** ** Enrollment *)
(* ===================================================================== *)

Lemma validation_passes body :
  valid_body body = true ->
  negb (truthy_field (body_name body)) || negb (truthy_field (body_rfid_tag body))
  || negb (truthy_field (body_section body)) || negb (truthy_field (body_id_number body))
  = false.
Proof.
  unfold valid_body. intros H.
  apply andb_true_iff in H as [H H4]. apply andb_true_iff in H as [H H3].
  apply andb_true_iff in H as [H1 H2]. now rewrite H1, H2, H3, H4.
Qed.

Lemma validation_fails body :
  valid_body body = false ->
  negb (truthy_field (body_name body)) || negb (truthy_field (body_rfid_tag body))
  || negb (truthy_field (body_section body)) || negb (truthy_field (body_id_number body))
  = true.
Proof.
  unfold valid_body.
  destruct (truthy_field (body_name body)), (truthy_field (body_rfid_tag body)),
    (truthy_field (body_section body)), (truthy_field (body_id_number body));
    simpl; congruence.
Qed.

(** A body with a missing or empty field is turned down, after the
    client has been taken from the pool and [BEGIN] sent, and the client
    goes back to the pool inside that transaction. *)
Lemma add_student_missing env d body :
  valid_body body = false ->
  add_student env d body
  = (missing_fields,
     mkClient (env 1%nat d) (Some empty_txn) [PoolConnect; Query BEGIN; ClientRelease]).
Proof.
  intros H. unfold add_student, add_student_try, bind, client_begin.
  cbn -[missing_fields]. rewrite (validation_fails body H). reflexivity.
Qed.

Lemma rows_found {A B} (g : A -> B) (f : A -> bool) (l : list A) :
  (0 <? List.length (map g (filter f l)))%nat = existsb f l.
Proof.
  induction l as [|x l IH]; simpl; [reflexivity|].
  destruct (f x); simpl; [reflexivity | exact IH].
Qed.

Lemma bind_unfold {A B} (m : M A) (k : A -> M B) st :
  bind m k st
  = match m st with
    | Value a st' => k a st'
    | Thrown e st' => Thrown e st'
    | Responded r st' => Responded r st'
    end.
Proof. reflexivity. Qed.

(** The client during the handler under [quiet]: the store [d] with its
    sequences possibly advanced, and the rows written so far. *)

Lemma insert_section_inv env n st id st' :
  insert_section env n st = Value id st' ->
  id = section_id_seq (committed (issue env (INSERT_section n) st))
  /\ st' = write (mkTxn [mkSection id n] [] [])
                 (nextval_section (issue env (INSERT_section n) st))
  /\ (String.length n <= 50)%nat
  /\ existsb (fun s => (section_name s =? n)%string)
             (view_sections (nextval_section (issue env (INSERT_section n) st))) = false.
Proof.
  unfold insert_section.
  destruct (50 <? String.length n)%nat eqn:E1; [discriminate|].
  destruct (existsb (fun s => section_id s =? _) _) eqn:E2; [discriminate|].
  destruct (existsb (fun s => (section_name s =? n)%string) _) eqn:E3; [discriminate|].
  intros H. inversion H; subst. apply Nat.ltb_ge in E1. repeat split; assumption.
Qed.

Lemma insert_person_inv env nm tag idn st id st' :
  insert_person env nm tag idn st = Value id st' ->
  id = person_id_seq (committed (issue env (INSERT_person nm tag idn) st))
  /\ st' = write (mkTxn [] [mkPerson id nm tag student (Some idn)] [])
                 (nextval_person (issue env (INSERT_person nm tag idn) st)).
Proof.
  unfold insert_person.
  destruct (_ || _); [discriminate|].
  destruct (existsb (fun p => person_id p =? _) _); [discriminate|].
  destruct (existsb (fun p => (rfid_tag p =? tag)%string) _); [discriminate|].
  destruct (existsb _ _); [discriminate|].
  intros H. inversion H; subst. split; reflexivity.
Qed.

Lemma insert_student_section_inv env pid sid st u st' :
  insert_student_section env pid sid st = Value u st' ->
  st' = write (mkTxn [] [] [mkLink pid sid]) (issue env (INSERT_student_section pid sid) st).
Proof.
  unfold insert_student_section.
  destruct (existsb _ (view_links _)); [discriminate|].
  destruct (negb _); [discriminate|].
  destruct (negb _); [discriminate|].
  intros H. now inversion H.
Qed.

Lemma insert_section_responds_never env n st r st' :
  insert_section env n st <> Responded r st'.
Proof.
  unfold insert_section.
  destruct (50 <? String.length n)%nat; [discriminate|].
  destruct (existsb (fun s => section_id s =? _) _); [discriminate|].
  destruct (existsb _ _); discriminate.
Qed.

Lemma insert_person_responds_never env nm tag idn st r st' :
  insert_person env nm tag idn st <> Responded r st'.
Proof.
  unfold insert_person.
  destruct (_ || _); [discriminate|].
  destruct (existsb (fun p => person_id p =? _) _); [discriminate|].
  destruct (existsb (fun p => (rfid_tag p =? tag)%string) _); [discriminate|].
  destruct (existsb _ _); discriminate.
Qed.

Lemma insert_student_section_responds_never env pid sid st r st' :
  insert_student_section env pid sid st <> Responded r st'.
Proof.
  unfold insert_student_section.
  destruct (existsb _ (view_links _)); [discriminate|].
  destruct (negb _); [discriminate|].
  destruct (negb _); discriminate.
Qed.

Lemma enroll_rows_responds_never env body st r st' :
  enroll_rows env body st <> Responded r st'.
Proof.
  unfold enroll_rows. rewrite bind_unfold.
  unfold select_section_by_name at 1. cbv beta iota zeta.
  rewrite bind_unfold.
  match goal with
  | |- match ?x with Value _ _ => _ | Thrown _ _ => _ | Responded _ _ => _ end <> _ =>
      destruct x as [sid s1|e s1|r1 s1] eqn:E1; [|discriminate|]
  end.
  2:{ exfalso. destruct (map section_id _) in E1.
      - now apply insert_section_responds_never in E1.
      - discriminate. }
  rewrite bind_unfold.
  destruct (insert_person _ _ _ _ s1) as [pid s2|e s2|r2 s2] eqn:E2; [|discriminate|].
  2:{ exfalso. now apply insert_person_responds_never in E2. }
  rewrite bind_unfold.
  destruct (insert_student_section _ _ _ s2) as [u s3|e s3|r3 s3] eqn:E3; [|discriminate|].
  2:{ exfalso. now apply insert_student_section_responds_never in E3. }
  discriminate.
Qed.

Lemma add_student_try_unfold env body st :
  add_student_try env body st
  = let st1 := begin_stmt env st in
    if negb (valid_body body) then Responded missing_fields st1
    else
      let tag := field (body_rfid_tag body) in
      let st2 := issue env (SELECT_person_by_rfid_tag tag) st1 in
      if existsb (fun p => (rfid_tag p =? tag)%string) (view_persons st2)
      then Responded duplicate_tag st2
      else
        let idn := field (body_id_number body) in
        let st3 := issue env (SELECT_person_by_id_number idn) st2 in
        if existsb (fun p => match id_number p with
                             | Some i => (i =? idn)%string
                             | None => false
                             end) (view_persons st3)
        then Responded duplicate_id_number st3
        else enroll_rows env body st3.
Proof.
  unfold add_student_try. rewrite bind_unfold. unfold client_begin at 1.
  cbv beta iota zeta.
  destruct (valid_body body) eqn:V.
  - rewrite (validation_passes body V). simpl negb. cbv iota.
    rewrite bind_unfold. unfold select_person_by_rfid_tag at 1. cbv beta iota zeta.
    rewrite rows_found.
    destruct (existsb _ (view_persons _)); [reflexivity|].
    rewrite bind_unfold. unfold select_person_by_id_number at 1. cbv beta iota zeta.
    rewrite rows_found.
    destruct (existsb _ (view_persons _)); reflexivity.
  - rewrite (validation_fails body V). reflexivity.
Qed.

Lemma existsb_filter_nil {A} (f : A -> bool) (l : list A) :
  existsb f l = false <-> filter f l = [].
Proof.
  induction l as [|x l IH]; simpl; [tauto|].
  destruct (f x); simpl; [split; discriminate | exact IH].
Qed.

(** What a successful enrollment has committed, for a handler running
    alone. *)
Lemma enroll_rows_quiet_store body d lg r st :
  enroll_rows quiet body (mkClient d (Some empty_txn) lg) = Value r st ->
  exists sid added,
    resolved_section d body sid added
    /\ r = EnrollOk ("Student " ++ field (body_name body) ++ " added successfully")
                    (mkEnrolled (person_id_seq d) (field (body_name body))
                                (field (body_rfid_tag body)) (field (body_section body))
                                (field (body_id_number body)))
    /\ committed st = enrolled_store d body sid added
    /\ pending st = None.
Proof.
  unfold enroll_rows, resolved_section. rewrite bind_unfold.
  unfold select_section_by_name at 1. cbv beta iota zeta.
  rewrite bind_unfold.
  match goal with
  | |- match ?x with Value _ _ => _ | Thrown _ _ => _ | Responded _ _ => _ end = _ -> _ =>
      destruct x as [sid s1|e s1|r1 s1] eqn:E1; [|discriminate|discriminate]
  end.
  rewrite bind_unfold.
  destruct (insert_person _ _ _ _ s1) as [pid s2|e s2|r2 s2] eqn:E2;
    [|discriminate|discriminate].
  rewrite bind_unfold.
  destruct (insert_student_section _ _ _ s2) as [u s3|e s3|r3 s3] eqn:E3;
    [|discriminate|discriminate].
  rewrite bind_unfold. unfold client_commit at 1, ret. cbv beta iota zeta.
  intros H. inversion H; subst; clear H.
  apply insert_person_inv in E2 as [Epid Es2].
  apply insert_student_section_inv in E3.
  unfold view_sections, issue, quiet in E1. cbn [committed pending log tx_sections empty_txn] in E1.
  rewrite app_nil_r in E1.
  destruct (filter _ (sections d)) as [|s0 ss] eqn:F; cbn [map] in E1.
  - apply insert_section_inv in E1 as (Esid & Es1 & _ & _).
    exists sid, [mkSection sid (field (body_section body))].
    subst s3 s2 s1. cbn in Esid, Epid |- *. subst sid pid.
    split; [split; reflexivity|]. split; [reflexivity|]. split; [|reflexivity].
    unfold enrolled_store, apply_txn, set_person_id_seq, set_section_id_seq. cbn.
    reflexivity.
  - unfold ret in E1. inversion E1; subst sid s1. clear E1.
    exists (section_id s0), [].
    subst s3 s2. cbn in Epid |- *. subst pid.
    split; [split; reflexivity|]. split; [reflexivity|]. split; [|reflexivity].
    unfold enrolled_store, apply_txn, set_person_id_seq, set_section_id_seq. cbn.
    now rewrite app_nil_r, Z.add_0_r.
Qed.

Lemma add_student_ok_store d body msg s st :
  add_student quiet d body = (EnrollOk msg s, st) ->
  valid_body body = true
  /\ tag_taken body (persons d) = false
  /\ id_number_taken body (persons d) = false
  /\ exists sid added,
       resolved_section d body sid added
       /\ s = mkEnrolled (person_id_seq d) (field (body_name body))
                         (field (body_rfid_tag body)) (field (body_section body))
                         (field (body_id_number body))
       /\ committed st = enrolled_store d body sid added
       /\ pending st = None.
Proof.
  unfold add_student. rewrite add_student_try_unfold. cbv zeta.
  unfold begin_stmt, issue, view_persons, quiet.
  cbn [committed pending log tx_persons empty_txn]. rewrite !app_nil_r.
  fold (tag_taken body (persons d)). fold (id_number_taken body (persons d)).
  destruct (valid_body body); [|discriminate]. cbn [negb].
  destruct (tag_taken body (persons d)); [discriminate|].
  destruct (id_number_taken body (persons d)); [discriminate|].
  destruct (enroll_rows _ _ _) as [r s1|e s1|r s1] eqn:E.
  - intros H. inversion H; subst; clear H.
    apply enroll_rows_quiet_store in E as (sid & added & Hm & Hr & Hc & Hn).
    inversion Hr; subst. split; [reflexivity|]. split; [reflexivity|].
    split; [reflexivity|]. exists sid, added. repeat split; assumption.
  - unfold add_student_catch. destruct (code e =? "23505")%string; discriminate.
  - now apply enroll_rows_responds_never in E.
Qed.

(** *** Properties of the enrollment handler *)

(** C3: enrolling with a tag that a person already carries is answered
    400 'RFID tag already exists'; only [BEGIN] and the tag lookup were
    sent, the store is the one before the request and the transaction
    holds no row: no person, section or link is created. *)
Theorem add_student_duplicate_tag d body :
  valid_body body = true ->
  tag_taken body (persons d) = true ->
  add_student quiet d body
  = (duplicate_tag,
     mkClient d (Some empty_txn)
              [PoolConnect; Query BEGIN;
               Query (SELECT_person_by_rfid_tag (field (body_rfid_tag body)));
               ClientRelease])
  /\ render_enroll duplicate_tag = failure 400 "RFID tag already exists".
Proof.
  intros V T. split; [|reflexivity].
  unfold add_student. rewrite add_student_try_unfold. cbv zeta.
  unfold begin_stmt, issue, view_persons, quiet.
  cbn [committed pending log tx_persons empty_txn]. rewrite app_nil_r.
  rewrite V. cbn [negb]. unfold tag_taken in T. rewrite T. reflexivity.
Qed.

(** [add_student_duplicate_tag] on a request that reuses Alice's tag. *)
Lemma add_student_duplicate_tag_witness :
  valid_body (mkEnrollBody (Some "Mallory") (Some "RFID1") (Some "ZZ-9") (Some "S777")) = true
  /\ tag_taken (mkEnrollBody (Some "Mallory") (Some "RFID1") (Some "ZZ-9") (Some "S777"))
               (persons store_alice) = true
  /\ add_student quiet store_alice
       (mkEnrollBody (Some "Mallory") (Some "RFID1") (Some "ZZ-9") (Some "S777"))
     = (duplicate_tag,
        mkClient store_alice (Some empty_txn)
                 [PoolConnect; Query BEGIN; Query (SELECT_person_by_rfid_tag "RFID1");
                  ClientRelease])
  /\ render_enroll duplicate_tag = failure 400 "RFID tag already exists".
Proof.
  split; [reflexivity|]. split; [reflexivity|].
  exact (add_student_duplicate_tag store_alice
           (mkEnrollBody (Some "Mallory") (Some "RFID1") (Some "ZZ-9") (Some "S777"))
           eq_refl eq_refl).
Defined.

(** C5: with [name] missing the handler answers 400 'Missing required
    fields', but it has taken a client from the pool and sent [BEGIN]
    before looking at the body, and it releases the client with that
    transaction still open. *)
Theorem add_student_missing_name_begins :
  add_student quiet fresh_store
    (mkEnrollBody None (Some "RFID1") (Some "CS-A") (Some "S001"))
  = (missing_fields,
     mkClient fresh_store (Some empty_txn) [PoolConnect; Query BEGIN; ClientRelease]).
Proof. reflexivity. Qed.

Lemma add_student_try_thrown env d body e st :
  add_student_try env body (mkClient d None [PoolConnect]) = Thrown e st ->
  valid_body body = true
  /\ tag_taken body (view_persons (tag_check_state env d body)) = false
  /\ id_number_taken body (view_persons (id_check_state env d body)) = false
  /\ enroll_rows env body (id_check_state env d body) = Thrown e st.
Proof.
  rewrite add_student_try_unfold. cbv zeta.
  fold (tag_check_state env d body). fold (id_check_state env d body).
  fold (tag_taken body (view_persons (tag_check_state env d body))).
  fold (id_number_taken body (view_persons (id_check_state env d body))).
  destruct (valid_body body); [|discriminate]. cbn [negb].
  destruct (tag_taken _ _); [discriminate|].
  destruct (id_number_taken _ _); [discriminate|].
  intros H. repeat split. exact H.
Qed.

(** C4 (amended): when the [try] block of an enrollment ends in a
    uniqueness violation of the storage layer (code 23505), which can
    only happen after the field validation and both duplicate pre-checks
    have passed, the transaction is rolled back and the caller gets the
    400 error 'Duplicate RFID tag or ID number', not the generic 500
    failure; the message is the same whichever constraint was violated. *)
Theorem add_student_unique_violation env d body e st :
  add_student_try env body (mkClient d None [PoolConnect]) = Thrown e st ->
  code e = "23505" ->
  (valid_body body = true
   /\ tag_taken body (view_persons (tag_check_state env d body)) = false
   /\ id_number_taken body (view_persons (id_check_state env d body)) = false)
  /\ fst (add_student env d body) = duplicate_tag_or_id
  /\ render_enroll (fst (add_student env d body))
     = failure 400 "Duplicate RFID tag or ID number"
  /\ pending (snd (add_student env d body)) = None
  /\ committed (snd (add_student env d body)) = env (List.length (log st)) (committed st)
  /\ log (snd (add_student env d body)) = (log st ++ [Query ROLLBACK; ClientRelease])%list.
Proof.
  intros T C.
  pose proof (add_student_try_thrown _ _ _ _ _ T) as (V & Ht & Hi & _).
  split; [repeat split; assumption|].
  unfold add_student. rewrite T. unfold add_student_catch. rewrite C.
  cbn -[duplicate_tag_or_id]. rewrite <- app_assoc. repeat split.
Qed.

(** [add_student_unique_violation] on a request whose tag a rival request
    commits between the pre-checks and the insert. *)
Lemma add_student_unique_violation_witness :
  add_student_try (rival 4 same_tag_body) bob_body (mkClient fresh_store None [PoolConnect])
  = Thrown (unique_violation "persons_rfid_tag_key")
           (mkClient
              (set_person_id_seq (committed (snd (add_student quiet fresh_store same_tag_body))) 3)
              (Some empty_txn)
              [PoolConnect; Query BEGIN; Query (SELECT_person_by_rfid_tag "RFID2");
               Query (SELECT_person_by_id_number "S002");
               Query (SELECT_section_by_name "CS-B");
               Query (INSERT_person "Bob" "RFID2" "S002")])
  /\ code (unique_violation "persons_rfid_tag_key") = "23505"
  /\ fst (add_student (rival 4 same_tag_body) fresh_store bob_body) = duplicate_tag_or_id
  /\ pending (snd (add_student (rival 4 same_tag_body) fresh_store bob_body)) = None.
Proof.
  assert (T : add_student_try (rival 4 same_tag_body) bob_body
                (mkClient fresh_store None [PoolConnect])
              = Thrown (unique_violation "persons_rfid_tag_key")
                  (mkClient
                     (set_person_id_seq
                        (committed (snd (add_student quiet fresh_store same_tag_body))) 3)
                     (Some empty_txn)
                     [PoolConnect; Query BEGIN; Query (SELECT_person_by_rfid_tag "RFID2");
                      Query (SELECT_person_by_id_number "S002");
                      Query (SELECT_section_by_name "CS-B");
                      Query (INSERT_person "Bob" "RFID2" "S002")]))
    by reflexivity.
  split; [exact T|]. split; [reflexivity|].
  destruct (add_student_unique_violation _ _ _ _ _ T eq_refl) as (_ & R & _ & P & _).
  split; [exact R | exact P].
Defined.

(** C4, as stated, fails: a rival enrollment that commits between the
    pre-checks and the insert makes the insert violate the tag constraint
    in one run and the id-number constraint in another, and the caller
    gets the same payload both times, which is neither the one of the tag
    pre-check nor the one of the id-number pre-check. *)
Lemma duplicate_race_counterexample :
  exists st1 st2,
    add_student_try (rival 4 same_tag_body) bob_body (mkClient fresh_store None [PoolConnect])
    = Thrown (unique_violation "persons_rfid_tag_key") st1
    /\ add_student_try (rival 4 same_id_body) bob_body (mkClient fresh_store None [PoolConnect])
       = Thrown (unique_violation "persons_id_number_key") st2
    /\ fst (add_student (rival 4 same_tag_body) fresh_store bob_body)
       = fst (add_student (rival 4 same_id_body) fresh_store bob_body)
    /\ fst (add_student (rival 4 same_tag_body) fresh_store bob_body) <> duplicate_tag
    /\ fst (add_student (rival 4 same_id_body) fresh_store bob_body) <> duplicate_id_number.
Proof.
  do 2 eexists. split; [vm_compute; reflexivity|]. split; [vm_compute; reflexivity|].
  split; [reflexivity|]. split; vm_compute; discriminate.
Qed.

(** The same payload answers a collision on a section name: two requests
    that both create the section "MATH-1". *)
Example section_race_reported_as_duplicate_tag :
  fst (add_student (rival 5 dave_body) fresh_store carol_body) = duplicate_tag_or_id.
Proof. reflexivity. Qed.

Lemma filter_app_new {A} (f : A -> bool) (l : list A) (x : A) :
  existsb f l = false -> f x = true -> filter f (l ++ [x]) = [x].
Proof.
  intros Hl Hx. rewrite filter_app. apply existsb_filter_nil in Hl. rewrite Hl.
  simpl. now rewrite Hx.
Qed.

(** C8: for handlers running one after the other, a successful
    enrollment under a section name that no section row carries adds
    exactly one section row, with that name, and links the new person to
    it; a following successful enrollment under the same name leaves the
    sections table as it is and links its person to that same row. *)
Theorem section_get_or_create d body1 body2 sec msg1 s1 st1 msg2 s2 st2 :
  body_section body1 = Some sec ->
  body_section body2 = Some sec ->
  existsb (fun s => (section_name s =? sec)%string) (sections d) = false ->
  add_student quiet d body1 = (EnrollOk msg1 s1, st1) ->
  add_student quiet (committed st1) body2 = (EnrollOk msg2 s2, st2) ->
  exists sid,
    sections (committed st1) = (sections d ++ [mkSection sid sec])%list
    /\ student_sections (committed st1)
       = (student_sections d ++ [mkLink (e_person_id s1) sid])%list
    /\ sections (committed st2) = sections (committed st1)
    /\ student_sections (committed st2)
       = (student_sections (committed st1) ++ [mkLink (e_person_id s2) sid])%list.
Proof.
  intros B1 B2 New H1 H2.
  apply add_student_ok_store in H1 as (_ & _ & _ & sid1 & add1 & M1 & -> & C1 & _).
  apply add_student_ok_store in H2 as (_ & _ & _ & sid2 & add2 & M2 & -> & C2 & _).
  unfold resolved_section in M1, M2.
  rewrite B1 in M1. rewrite B2 in M2. cbn [field] in M1, M2.
  pose proof New as Hnil. apply existsb_filter_nil in Hnil. rewrite Hnil in M1.
  destruct M1 as [E1 A1]. subst add1.
  rewrite C1 in M2. cbn [enrolled_store sections] in M2.
  rewrite filter_app_new in M2;
    [|assumption | cbn [section_name]; apply String.eqb_refl].
  destruct M2 as [E2 A2]. cbn [section_id] in E2. subst add2 sid2.
  exists sid1. rewrite C2, C1. cbn. rewrite app_nil_r. repeat split.
Qed.

(** Section names are compared exactly: cs-a is not the section CS-A of
    the bootstrap and gets a row of its own. *)
Example section_name_is_case_sensitive :
  sections (committed (snd (add_student quiet fresh_store
             (mkEnrollBody (Some "Zed") (Some "RFID5") (Some "cs-a") (Some "S005")))))
  = (sections fresh_store ++ [mkSection 7 "cs-a"])%list.
Proof. reflexivity. Qed.

(** [section_get_or_create] on two enrollments under the new name
    MATH-1. *)
Lemma section_get_or_create_witness :
  body_section carol_body = Some "MATH-1"
  /\ body_section dave_body = Some "MATH-1"
  /\ existsb (fun s => (section_name s =? "MATH-1")%string) (sections fresh_store) = false
  /\ exists sid,
       sections (committed (snd (add_student quiet fresh_store carol_body)))
       = (sections fresh_store ++ [mkSection sid "MATH-1"])%list
       /\ student_sections (committed (snd (add_student quiet fresh_store carol_body)))
          = (student_sections fresh_store ++ [mkLink 1 sid])%list
       /\ sections (committed (snd (add_student quiet
                      (committed (snd (add_student quiet fresh_store carol_body))) dave_body)))
          = sections (committed (snd (add_student quiet fresh_store carol_body)))
       /\ student_sections (committed (snd (add_student quiet
                      (committed (snd (add_student quiet fresh_store carol_body))) dave_body)))
          = (student_sections (committed (snd (add_student quiet fresh_store carol_body)))
             ++ [mkLink 2 sid])%list.
Proof.
  split; [reflexivity|]. split; [reflexivity|]. split; [reflexivity|].
  exact (section_get_or_create fresh_store carol_body dave_body "MATH-1"
           "Student Carol added successfully"
           (mkEnrolled 1 "Carol" "RFID3" "MATH-1" "S003")
           (snd (add_student quiet fresh_store carol_body))
           "Student Dave added successfully"
           (mkEnrolled 2 "Dave" "RFID4" "MATH-1" "S004")
           (snd (add_student quiet
                   (committed (snd (add_student quiet fresh_store carol_body))) dave_body))
           eq_refl eq_refl eq_refl eq_refl eq_refl).
Defined.

(** *** Payload shapes *)

Lemma enroll_rows_value env body st r st' :
  enroll_rows env body st = Value r st' -> exists msg s, r = EnrollOk msg s.
Proof.
  unfold enroll_rows. rewrite bind_unfold.
  unfold select_section_by_name at 1. cbv beta iota zeta.
  rewrite bind_unfold.
  match goal with
  | |- match ?x with Value _ _ => _ | Thrown _ _ => _ | Responded _ _ => _ end = _ -> _ =>
      destruct x as [sid s1|e s1|r1 s1]; [|discriminate|discriminate]
  end.
  rewrite bind_unfold.
  destruct (insert_person _ _ _ _ s1) as [pid s2|e s2|r2 s2]; [|discriminate|discriminate].
  rewrite bind_unfold.
  destruct (insert_student_section _ _ _ s2) as [u s3|e s3|r3 s3];
    [|discriminate|discriminate].
  rewrite bind_unfold. unfold client_commit at 1, ret. cbv beta iota zeta.
  intros H. inversion H. eauto.
Qed.

(** The responses the enrollment handler can give. *)
Lemma add_student_responses env d body :
  (exists msg s, fst (add_student env d body) = EnrollOk msg s)
  \/ In (fst (add_student env d body))
        [missing_fields; duplicate_tag; duplicate_id_number; duplicate_tag_or_id;
         add_student_failed].
Proof.
  unfold add_student. rewrite add_student_try_unfold. cbv zeta.
  destruct (negb (valid_body body)); [right; simpl; auto|].
  destruct (existsb _ _); [right; simpl; auto|].
  destruct (existsb _ _); [right; simpl; auto|].
  destruct (enroll_rows _ _ _) as [r s1|e s1|r s1] eqn:E.
  - left. apply enroll_rows_value in E as (msg & s & ->). simpl. eauto.
  - right. unfold add_student_catch. destruct (code e =? "23505")%string; simpl; auto 10.
  - now apply enroll_rows_responds_never in E.
Qed.

(** C9, as stated, fails: the health payload has no [success] member. *)
Lemma health_counterexample :
  success_flag (respond_to GetHealth) = None
  /\ status (respond_to GetHealth) = 200.
Proof. split; reflexivity. Qed.

(** C9 (amended): every response of every endpoint other than the health
    check carries a boolean [success]; it is [true] on the 200 responses
    and [false] on the 400, 404 and 500 responses, and a payload with
    [success] false also carries an [error] string. *)
Theorem payloads_carry_success_flag c :
  c <> GetHealth ->
  exists b,
    success_flag (respond_to c) = Some b
    /\ (b = true -> status (respond_to c) = 200)
    /\ (b = false ->
        In (status (respond_to c)) [400; 404; 500]
        /\ exists e, error_string (respond_to c) = Some e).
Proof.
  intros Hc.
  assert (Hfail : forall code e,
             In code [400; 404; 500] ->
             exists b,
               success_flag (failure code e) = Some b
               /\ (b = true -> status (failure code e) = 200)
               /\ (b = false ->
                   In (status (failure code e)) [400; 404; 500]
                   /\ exists e', error_string (failure code e) = Some e')).
  { intros code e Hin. exists false. split; [reflexivity|]. split; [discriminate|].
    intros _. split; [exact Hin | exists e; reflexivity]. }
  assert (Hok : forall fs,
             exists b,
               success_flag (mkResponse 200 (JObj (("success", JBool true) :: fs))) = Some b
               /\ (b = true ->
                   status (mkResponse 200 (JObj (("success", JBool true) :: fs))) = 200)
               /\ (b = false ->
                   In (status (mkResponse 200 (JObj (("success", JBool true) :: fs))))
                      [400; 404; 500]
                   /\ exists e',
                       error_string (mkResponse 200 (JObj (("success", JBool true) :: fs)))
                       = Some e')).
  { intros fs. exists true. split; [reflexivity|]. split; [reflexivity | discriminate]. }
  destruct c as [|q|d body|env d body|q|q|q| |]; cbn [respond_to].
  - congruence.
  - destruct q; cbn [get_sections]; [apply Hok | apply Hfail; simpl; auto].
  - destruct (fst (fst (verify_attendance d body))); cbn [render_verify];
      [apply Hok | apply Hfail; simpl; auto | apply Hfail; simpl; auto].
  - destruct (add_student_responses env d body) as [(msg & s & ->)|Hin].
    + apply Hok.
    + simpl in Hin.
      destruct Hin as [<-|[<-|[<-|[<-|[<-|[]]]]]]; apply Hfail; simpl; auto.
  - destruct q; [apply Hok | apply Hfail; simpl; auto].
  - destruct q; [apply Hok | apply Hfail; simpl; auto].
  - destruct q; [apply Hok | apply Hfail; simpl; auto].
  - apply Hfail; simpl; auto.
  - apply Hfail; simpl; auto.
Qed.

(** [payloads_carry_success_flag] on a route that does not exist. *)
Lemma payloads_carry_success_flag_witness :
  UnknownRoute <> GetHealth
  /\ exists b,
       success_flag (respond_to UnknownRoute) = Some b
       /\ (b = true -> status (respond_to UnknownRoute) = 200)
       /\ (b = false ->
           In (status (respond_to UnknownRoute)) [400; 404; 500]
           /\ exists e, error_string (respond_to UnknownRoute) = Some e).
Proof.
  assert (H : UnknownRoute <> GetHealth) by discriminate.
  split; [exact H|]. exact (payloads_carry_success_flag UnknownRoute H).
Defined.

(* ===================================================================== *)
(** ** Well-formed stores *)
(* ===================================================================== *)

Lemma same_rows_refl d : same_rows d d.
Proof. unfold same_rows. repeat split; lia. Qed.

Lemma same_rows_trans d1 d2 d3 : same_rows d1 d2 -> same_rows d2 d3 -> same_rows d1 d3.
Proof.
  unfold same_rows. intros (A1 & A2 & A3 & A4 & A5 & A6 & A7 & A8)
                           (B1 & B2 & B3 & B4 & B5 & B6 & B7 & B8).
  repeat split; try congruence; lia.
Qed.

Lemma store_ok_same_rows d d' : same_rows d d' -> store_ok d -> store_ok d'.
Proof.
  intros (E1 & E2 & E3 & E4 & E5 & L1 & L2 & L3) [K1 K2 K3 K4 K5 K6 K7 K8].
  constructor; unfold links_of_person in *; rewrite ?E1, ?E2, ?E3, ?E5; auto.
  - intros p Hp. specialize (K6 p Hp). lia.
  - intros s Hs. specialize (K7 s Hs). lia.
  - intros a Ha. specialize (K8 a Ha). lia.
Qed.

Lemma fresh_store_ok : store_ok fresh_store.
Proof.
  constructor; simpl.
  - constructor.
  - constructor.
  - exact (NoDup_nodup Z.eq_dec [1; 2; 3; 4; 5; 6]).
  - intros l [].
  - intros p [].
  - intros p [].
  - intros s H. repeat (destruct H as [<-|H]; [simpl; lia|]). destruct H.
  - intros a [].
Qed.

Lemma insert_attendance_all_seq rows : forall d cid,
  (forall a, In a (attendance d) -> attendance_id a < attendance_id_seq d) ->
  forall a, In a (attendance (fst (insert_attendance_all d rows cid))) ->
            attendance_id a < attendance_id_seq (fst (insert_attendance_all d rows cid)).
Proof.
  induction rows as [|r rows IH]; intros d cid H; simpl; [exact H|].
  destruct (insert_attendance d (r_person_id r) cid) as [d1 ok1] eqn:E1.
  specialize (IH d1 cid).
  destruct (insert_attendance_all d1 rows cid) as [d2 ok2]. simpl in *.
  apply IH. intros a Ha.
  unfold insert_attendance in E1.
  destruct (_ && _) in E1; inversion E1; subst; simpl in *.
  - apply in_app_or in Ha as [Ha|[<-|[]]]; simpl; [specialize (H a Ha)|]; lia.
  - specialize (H a Ha). lia.
Qed.

Lemma verify_attendance_keeps_store_ok d body resp d' lg :
  store_ok d -> verify_attendance d body = (resp, d', lg) -> store_ok d'.
Proof.
  intros [K1 K2 K3 K4 K5 K6 K7 K8] H.
  pose proof (verify_attendance_frame _ _ _ _ _ H) as (E1 & E2 & E3 & _ & _).
  assert (Hseq : person_id_seq d' = person_id_seq d /\ section_id_seq d' = section_id_seq d
                 /\ forall a, In a (attendance d') -> attendance_id a < attendance_id_seq d').
  { unfold verify_attendance in H.
    destruct (negb _ || negb _).
    - inversion H; subst. auto.
    - pose proof (insert_attendance_all_spec
                    (select_students_by_tags d (array_items (body_rfid_tags body)))
                    d (classroom_of body)) as S.
      pose proof (insert_attendance_all_seq
                    (select_students_by_tags d (array_items (body_rfid_tags body)))
                    d (classroom_of body) K8) as Q.
      destruct (insert_attendance_all d _ (classroom_of body)) as [d2 ok]. simpl in S, Q.
      assert (d2 = d') by (destruct ok; now inversion H). subst d2.
      destruct S as (_ & _ & _ & _ & S5 & S6 & _). auto. }
  destruct Hseq as (Q1 & Q2 & Q3).
  constructor; unfold links_of_person in *; rewrite ?E1, ?E2, ?E3, ?Q1, ?Q2; auto.
Qed.

Lemma NoDup_snoc {A} (l : list A) (x : A) : NoDup l -> ~ In x l -> NoDup (l ++ [x]).
Proof.
  intros Hl Hx. apply NoDup_app; [assumption | apply NoDup_one |].
  intros y Hy [<-|[]]. contradiction.
Qed.

Lemma existsb_false_not_in {A B} (f : A -> B) (eqb : B -> B -> bool) (k : B) (l : list A) :
  (forall a b, eqb a b = true <-> a = b) ->
  existsb (fun x => eqb (f x) k) l = false -> ~ In k (map f l).
Proof.
  intros Heq H Hin. apply in_map_iff in Hin as (x & Hx & Hin).
  assert (existsb (fun x => eqb (f x) k) l = true); [|congruence].
  apply existsb_exists. exists x. split; [assumption|]. now apply Heq.
Qed.

(** A committed enrollment keeps the store well formed. *)
Lemma enrolled_store_ok d body sid added :
  store_ok d ->
  tag_taken body (persons d) = false ->
  resolved_section d body sid added ->
  store_ok (enrolled_store d body sid added).
Proof.
  intros [K1 K2 K3 K4 K5 K6 K7 K8] Ht Hr.
  assert (Hpid : ~ In (person_id_seq d) (map person_id (persons d))).
  { intros Hin. apply in_map_iff in Hin as (p & Hp & Hin). specialize (K6 p Hin). lia. }
  assert (Hnolink : filter (fun l => ss_person_id l =? person_id_seq d) (student_sections d) = []).
  { apply filter_none. intros l Hl. apply Z.eqb_neq. intros E.
    specialize (K4 l Hl). apply existsb_exists in K4 as (p & Hp & Hq).
    apply Z.eqb_eq in Hq. specialize (K6 p Hp). lia. }
  assert (Hadd : (added = [] \/ added = [mkSection (section_id_seq d) (field (body_section body))])).
  { unfold resolved_section in Hr. destruct (filter _ (sections d)).
    - destruct Hr as [-> ->]. now right.
    - destruct Hr as [_ ->]. now left. }
  constructor; unfold enrolled_store, links_of_person; cbn [persons sections student_sections
    attendance person_id_seq section_id_seq attendance_id_seq].
  - rewrite map_app. now apply NoDup_snoc.
  - rewrite map_app. apply NoDup_snoc; [assumption|].
    apply (existsb_false_not_in rfid_tag String.eqb); [apply String.eqb_eq | exact Ht].
  - destruct Hadd as [-> | ->]; [now rewrite app_nil_r|].
    rewrite map_app. apply NoDup_snoc; [assumption|].
    intros Hin. apply in_map_iff in Hin as (s & Hs & Hin). specialize (K7 s Hin).
    simpl in Hs. lia.
  - intros l Hl. rewrite existsb_app. apply in_app_or in Hl as [Hl|[<-|[]]].
    + now rewrite (K4 l Hl).
    + simpl. rewrite Z.eqb_refl. now rewrite orb_true_r.
  - intros p Hp. rewrite filter_app, length_app. apply in_app_or in Hp as [Hp|[<-|[]]].
    + specialize (K5 p Hp). unfold links_of_person in K5. specialize (K6 p Hp).
      simpl. destruct (Z.eqb_spec (person_id_seq d) (person_id p)); simpl; lia.
    + cbn [person_id]. rewrite Hnolink. simpl. rewrite Z.eqb_refl. simpl. lia.
  - intros p Hp. apply in_app_or in Hp as [Hp|[<-|[]]]; [specialize (K6 p Hp)|simpl]; lia.
  - intros s Hs. apply in_app_or in Hs as [Hs|Hs]; [specialize (K7 s Hs); lia|].
    destruct Hadd as [-> | ->]; [destruct Hs|].
    destruct Hs as [<-|[]]. simpl. lia.
  - exact K8.
Qed.

Lemma insert_section_quiet_frame n st t :
  pending st = Some t ->
  same_rows (committed st) (committed (state_of (insert_section quiet n st)))
  /\ exists t', pending (state_of (insert_section quiet n st)) = Some t'.
Proof.
  intros P. unfold insert_section, nextval_section, issue, write, quiet.
  cbn [committed pending log]. rewrite P.
  destruct (50 <? String.length n)%nat; [|destruct (existsb _ _); [|destruct (existsb _ _)]];
    cbn [state_of committed pending]; (split; [|eauto]);
    unfold same_rows, set_section_id_seq; cbn; repeat split; lia.
Qed.

Lemma insert_person_quiet_frame nm tag idn st t :
  pending st = Some t ->
  same_rows (committed st) (committed (state_of (insert_person quiet nm tag idn st)))
  /\ exists t', pending (state_of (insert_person quiet nm tag idn st)) = Some t'.
Proof.
  intros P. unfold insert_person, nextval_person, issue, write, quiet.
  cbn [committed pending log]. rewrite P.
  destruct (_ || _);
    [|destruct (existsb _ _); [|destruct (existsb _ _); [|destruct (existsb _ _)]]];
    cbn [state_of committed pending]; (split; [|eauto]);
    unfold same_rows, set_person_id_seq; cbn; repeat split; lia.
Qed.

Lemma insert_student_section_quiet_frame pid sid st t :
  pending st = Some t ->
  same_rows (committed st) (committed (state_of (insert_student_section quiet pid sid st)))
  /\ exists t', pending (state_of (insert_student_section quiet pid sid st)) = Some t'.
Proof.
  intros P. unfold insert_student_section, issue, write, quiet.
  cbn [committed pending log]. rewrite P.
  destruct (existsb _ _); [|destruct (negb _); [|destruct (negb _)]];
    cbn [state_of committed pending]; (split; [|eauto]); apply same_rows_refl.
Qed.

Lemma enroll_rows_quiet_thrown body st t e st' :
  pending st = Some t ->
  enroll_rows quiet body st = Thrown e st' ->
  same_rows (committed st) (committed st').
Proof.
  intros P. unfold enroll_rows. rewrite bind_unfold.
  unfold select_section_by_name at 1. cbv beta iota zeta.
  set (st0 := issue quiet _ st).
  assert (P0 : pending st0 = Some t) by exact P.
  assert (R0 : same_rows (committed st) (committed st0)) by apply same_rows_refl.
  rewrite bind_unfold.
  match goal with
  | |- match ?x with Value _ _ => _ | Thrown _ _ => _ | Responded _ _ => _ end = _ -> _ =>
      assert (F1 : same_rows (committed st0) (committed (state_of x))
                   /\ exists t', pending (state_of x) = Some t');
      [|destruct x as [sid s1|e1 s1|r1 s1] eqn:E1]
  end.
  { destruct (map section_id _).
    - now apply insert_section_quiet_frame with (t := t).
    - unfold ret. simpl. split; [apply same_rows_refl | eauto]. }
  2:{ intros H. inversion H; subst. simpl in F1. destruct F1 as [F1 _].
      exact (same_rows_trans _ _ _ R0 F1). }
  2:{ discriminate. }
  simpl in F1. destruct F1 as [F1 [t1 P1]].
  rewrite bind_unfold.
  pose proof (insert_person_quiet_frame (field (body_name body)) (field (body_rfid_tag body))
                (field (body_id_number body)) s1 t1 P1) as [F2 [t2 P2]].
  destruct (insert_person _ _ _ _ s1) as [pid s2|e2 s2|r2 s2]; simpl in F2, P2.
  2:{ intros H. inversion H; subst.
      exact (same_rows_trans _ _ _ (same_rows_trans _ _ _ R0 F1) F2). }
  2:{ discriminate. }
  rewrite bind_unfold.
  pose proof (insert_student_section_quiet_frame pid sid s2 t2 P2) as [F3 _].
  destruct (insert_student_section _ _ _ s2) as [u s3|e3 s3|r3 s3]; simpl in F3.
  2:{ intros H. inversion H; subst.
      exact (same_rows_trans _ _ _
               (same_rows_trans _ _ _ (same_rows_trans _ _ _ R0 F1) F2) F3). }
  2:{ discriminate. }
  rewrite bind_unfold. unfold client_commit at 1, ret. discriminate.
Qed.

(** An enrollment that does not answer with success leaves every row of
    the store as it was. *)
Lemma add_student_quiet_frame d body resp st :
  add_student quiet d body = (resp, st) ->
  (forall msg s, resp <> EnrollOk msg s) ->
  same_rows d (committed st).
Proof.
  unfold add_student. rewrite add_student_try_unfold. cbv zeta.
  destruct (negb (valid_body body)).
  { intros H _. inversion H; subst. apply same_rows_refl. }
  destruct (existsb _ _).
  { intros H _. inversion H; subst. apply same_rows_refl. }
  destruct (existsb _ _).
  { intros H _. inversion H; subst. apply same_rows_refl. }
  destruct (enroll_rows _ _ _) as [r s1|e s1|r s1] eqn:E.
  - intros H Hno. inversion H; subst.
    apply enroll_rows_value in E as (msg & s & ->). now elim (Hno msg s).
  - intros H _. apply enroll_rows_quiet_thrown with (t := empty_txn) in E; [|reflexivity].
    unfold add_student_catch in H.
    destruct (code e =? "23505")%string; inversion H; subst; exact E.
  - now apply enroll_rows_responds_never in E.
Qed.

(** Enrollment, whatever it answers, keeps the store well formed. *)
Lemma add_student_keeps_store_ok d body resp st :
  store_ok d -> add_student quiet d body = (resp, st) -> store_ok (committed st).
Proof.
  intros K H. destruct resp as [msg s|c e].
  - apply add_student_ok_store in H as (_ & Ht & _ & sid & added & Hr & _ & -> & _).
    now apply enrolled_store_ok.
  - apply (store_ok_same_rows d); [|assumption].
    apply (add_student_quiet_frame _ _ _ _ H). discriminate.
Qed.

Lemma existsb_false {A} (f : A -> bool) (l : list A) :
  (forall x, In x l -> f x = false) -> existsb f l = false.
Proof.
  intros H. apply not_true_is_false. intros E.
  apply existsb_exists in E as (x & Hx & Hf). rewrite (H x Hx) in Hf. discriminate.
Qed.

(** X10: on a well-formed store, a valid request with a new tag and a new
    id number whose fields fit the columns is answered with success, and
    the store it commits is the old one with the new person, its link and
    the section row if one had to be created. *)
Lemma add_student_succeeds d body :
  store_ok d ->
  valid_body body = true ->
  tag_taken body (persons d) = false ->
  id_number_taken body (persons d) = false ->
  fits_columns body ->
  exists sid added st,
    resolved_section d body sid added
    /\ add_student quiet d body
       = (EnrollOk ("Student " ++ field (body_name body) ++ " added successfully")
                   (mkEnrolled (person_id_seq d) (field (body_name body))
                               (field (body_rfid_tag body)) (field (body_section body))
                               (field (body_id_number body))),
          st)
    /\ committed st = enrolled_store d body sid added.
Proof.
  intros [K1 K2 K3 K4 K5 K6 K7 K8] V Ht Hi (L1 & L2 & L3 & L4).
  assert (Hpk : existsb (fun p => person_id p =? person_id_seq d) (persons d) = false).
  { apply existsb_false. intros p Hp. apply Z.eqb_neq. specialize (K6 p Hp). lia. }
  assert (Hsk : existsb (fun s => section_id s =? section_id_seq d) (sections d) = false).
  { apply existsb_false. intros s Hs. apply Z.eqb_neq. specialize (K7 s Hs). lia. }
  assert (Hlk : forall sid,
             existsb (fun l => (ss_person_id l =? person_id_seq d) && (ss_section_id l =? sid))
                     (student_sections d) = false).
  { intros sid. apply existsb_false. intros l Hl. apply andb_false_iff. left.
    apply Z.eqb_neq. intros E. specialize (K4 l Hl).
    apply existsb_exists in K4 as (p & Hp & Hq). apply Z.eqb_eq in Hq.
    specialize (K6 p Hp). lia. }
  apply Nat.ltb_ge in L1, L2, L3, L4.
  unfold add_student. rewrite add_student_try_unfold. cbv zeta.
  unfold begin_stmt, issue, view_persons, quiet.
  cbn [committed pending log tx_persons empty_txn]. rewrite !app_nil_r.
  fold (tag_taken body (persons d)). fold (id_number_taken body (persons d)).
  rewrite V, Ht, Hi. cbn [negb].
  unfold enroll_rows, resolved_section.
  rewrite bind_unfold. unfold select_section_by_name at 1. cbv beta iota zeta.
  unfold view_sections, issue, quiet. cbn [committed pending log tx_sections empty_txn].
  rewrite app_nil_r.
  destruct (filter _ (sections d)) as [|s0 ss] eqn:F; cbn [map].
  - exists (section_id_seq d), [mkSection (section_id_seq d) (field (body_section body))].
    eexists. split; [split; reflexivity|].
    rewrite bind_unfold. unfold insert_section, nextval_section, issue, write, view_sections, quiet.
    cbn [committed pending log tx_sections empty_txn sections set_section_id_seq].
    rewrite L4, !app_nil_r, Hsk, (proj2 (existsb_filter_nil _ _) F).
    rewrite bind_unfold. unfold insert_person, nextval_person, issue, write, view_persons, quiet.
    cbn [committed pending log tx_persons empty_txn persons set_section_id_seq
         set_person_id_seq person_id_seq app].
    rewrite L1, L2, L3, !app_nil_r. fold (tag_taken body (persons d)).
    fold (id_number_taken body (persons d)). rewrite Hpk, Ht, Hi. cbn [orb].
    rewrite bind_unfold.
    unfold insert_student_section, issue, write, view_links, view_persons, view_sections, quiet.
    cbn [committed pending log tx_persons tx_links tx_sections empty_txn persons sections
         student_sections set_section_id_seq set_person_id_seq app].
    rewrite ?app_nil_r, Hlk, !existsb_app. cbn [existsb person_id section_id].
    rewrite !Z.eqb_refl, !orb_true_r. cbn [negb orb].
    rewrite bind_unfold. unfold client_commit at 1, ret. cbv beta iota zeta.
    split; [reflexivity|].
    unfold enrolled_store, commit_stmt, release, issue, apply_txn, quiet. cbn. reflexivity.
  - exists (section_id s0), []. eexists. split; [split; reflexivity|].
    assert (Hs0 : existsb (fun s => section_id s =? section_id s0) (sections d) = true).
    { apply existsb_exists. exists s0. split; [|apply Z.eqb_refl].
      assert (In s0 (filter (fun s => (section_name s =? field (body_section body))%string)
                            (sections d))) as Hin by (rewrite F; now left).
      now apply filter_In in Hin. }
    rewrite bind_unfold. unfold ret at 1.
    rewrite bind_unfold. unfold insert_person, nextval_person, issue, write, view_persons, quiet.
    cbn [committed pending log tx_persons empty_txn persons set_section_id_seq
         set_person_id_seq person_id_seq app].
    rewrite L1, L2, L3, !app_nil_r. fold (tag_taken body (persons d)).
    fold (id_number_taken body (persons d)). rewrite Hpk, Ht, Hi. cbn [orb].
    rewrite bind_unfold.
    unfold insert_student_section, issue, write, view_links, view_persons, view_sections, quiet.
    cbn [committed pending log tx_persons tx_links tx_sections empty_txn persons sections
         student_sections set_section_id_seq set_person_id_seq app].
    rewrite !app_nil_r, Hlk, existsb_app, Hs0. cbn [existsb person_id].
    rewrite !Z.eqb_refl, !orb_true_r. cbn [negb orb].
    rewrite bind_unfold. unfold client_commit at 1, ret. cbv beta iota zeta.
    split; [reflexivity|].
    unfold enrolled_store, commit_stmt, release, issue, apply_txn, quiet. cbn.
    now rewrite app_nil_r, Z.add_0_r.
Qed.

(** Every store the API builds is well formed: keys unique, links
    pointing at persons, one section link per person at most, sequences
    ahead of the ids. *)
Lemma reachable_store_ok d : reachable d -> store_ok d.
Proof.
  induction 1 as [|d body _ IH|d body _ IH].
  - exact fresh_store_ok.
  - destruct (add_student quiet d body) as [resp st] eqn:E.
    exact (add_student_keeps_store_ok _ _ _ _ IH E).
  - destruct (verify_attendance d body) as [[resp d'] lg] eqn:E.
    exact (verify_attendance_keeps_store_ok _ _ _ _ _ IH E).
Qed.

Lemma reachable_classrooms d : reachable d -> classrooms d = classrooms fresh_store.
Proof.
  induction 1 as [|d body _ IH|d body _ IH]; [reflexivity| |].
  - destruct (add_student quiet d body) as [resp st] eqn:E. cbn [snd].
    destruct resp as [msg s|c e].
    + apply add_student_ok_store in E as (_ & _ & _ & sid & added & _ & _ & -> & _).
      exact IH.
    + assert (F : same_rows d (committed st))
        by (apply (add_student_quiet_frame _ _ _ _ E); discriminate).
      destruct F as (_ & _ & _ & -> & _). exact IH.
  - destruct (verify_attendance d body) as [[resp d'] lg] eqn:E. cbn [fst snd].
    apply verify_attendance_frame in E as (_ & _ & _ & -> & _). exact IH.
Qed.

(** On a store the API has built, a well-formed batch at the default
    classroom is always answered with the lists. *)
Lemma reachable_verify_succeeds d tags :
  reachable d ->
  exists r d' lg,
    verify_attendance d (mkVerifyBody (JsArray tags) None) = (VerifyOk r, d', lg).
Proof.
  intros R. apply verify_attendance_succeeds.
  - rewrite (reachable_classrooms d R). reflexivity.
  - exact (attendance_seq d (reachable_store_ok d R)).
Qed.

(* ===================================================================== *)
(** ** More on verification *)
(* ===================================================================== *)

Lemma enrolled_student_matches d tags t :
  In t tags -> enrolled_student d t = true ->
  exists p, In p (persons d) /\ rfid_tag p = t /\ matches tags p = true.
Proof.
  intros Hin He. unfold enrolled_student in He.
  apply existsb_exists in He as (p & Hp & Hc). apply andb_true_iff in Hc as [Ht Hr].
  apply String.eqb_eq in Ht. exists p. repeat split; try assumption.
  unfold matches. rewrite Hr, andb_true_r. apply includes_In. now rewrite Ht.
Qed.

Lemma select_students_nil_iff d tags :
  select_students_by_tags d tags = [] <-> forall t, In t tags -> enrolled_student d t = false.
Proof.
  split.
  - intros E t Hin. apply not_true_is_false. intros He.
    assert (H : In t (map r_rfid_tag (select_students_by_tags d tags)))
      by (apply found_tag_iff; now split).
    rewrite E in H. destruct H.
  - intros H. destruct (select_students_by_tags d tags) as [|r rs] eqn:E; [reflexivity|].
    assert (Hin : In (r_rfid_tag r) (map r_rfid_tag (select_students_by_tags d tags)))
      by (rewrite E; now left).
    apply found_tag_iff in Hin as [Hin He]. rewrite (H _ Hin) in He. discriminate.
Qed.

Lemma insert_attendance_no_classroom d pid cid :
  classroom_exists d cid = false ->
  insert_attendance d pid cid = (set_attendance_id_seq d (attendance_id_seq d + 1), false).
Proof.
  intros Hc. unfold insert_attendance. unfold classroom_exists in Hc.
  now rewrite Hc, andb_false_r.
Qed.

(** Without the classroom, no insert is accepted. *)
Lemma insert_attendance_all_no_classroom rows : forall d cid,
  classroom_exists d cid = false ->
  attendance (fst (insert_attendance_all d rows cid)) = attendance d
  /\ snd (insert_attendance_all d rows cid) = match rows with [] => true | _ => false end.
Proof.
  induction rows as [|r rows IH]; intros d cid Hc; simpl; [split; reflexivity|].
  rewrite (insert_attendance_no_classroom d _ cid Hc).
  specialize (IH (set_attendance_id_seq d (attendance_id_seq d + 1)) cid Hc).
  destruct (insert_attendance_all _ rows cid) as [d2 ok2]. simpl in *.
  destruct IH as [IH _]. split; [exact IH | reflexivity].
Qed.

(** X5: a verification at a classroom that does not exist records nothing.
    It is answered with success, every token unrecognized, when no token
    of the batch belongs to a student, and with the 500 failure as soon
    as one does. *)
Theorem verify_unknown_classroom d tags c :
  classroom_exists d (classroom_of (mkVerifyBody (JsArray tags) c)) = false ->
  attendance (snd (fst (verify_attendance d (mkVerifyBody (JsArray tags) c)))) = attendance d
  /\ ((forall t, In t tags -> enrolled_student d t = false) ->
      fst (verify_attendance d (mkVerifyBody (JsArray tags) c))
      = (VerifyOk (mkVerifyResult (List.length tags) [] tags
                                  (summary 0 (List.length tags))), d))
  /\ ((exists t, In t tags /\ enrolled_student d t = true) ->
      fst (fst (verify_attendance d (mkVerifyBody (JsArray tags) c))) = VerifyFailed).
Proof.
  intros Hc.
  pose proof (insert_attendance_all_no_classroom (select_students_by_tags d tags) d _ Hc)
    as [Ha Hok].
  unfold verify_attendance. cbn [body_rfid_tags truthy is_array negb orb array_items].
  destruct (insert_attendance_all d (select_students_by_tags d tags) _) as [d2 ok] eqn:E.
  cbn [fst snd] in Ha, Hok.
  split; [destruct ok; exact Ha|]. split.
  - intros Hno. apply select_students_nil_iff in Hno.
    rewrite Hno in *. cbn [insert_attendance_all] in E. inversion E; subst.
    cbn [map List.length fst]. rewrite forallb_filter_id; [reflexivity|].
    apply forallb_forall. intros t _. reflexivity.
  - intros (t & Hin & He).
    destruct (select_students_by_tags d tags) as [|r rs] eqn:Es.
    + assert (Hnil : select_students_by_tags d tags = []) by exact Es.
      rewrite select_students_nil_iff in Hnil. rewrite (Hnil t Hin) in He. discriminate.
    + subst ok. reflexivity.
Qed.

Lemma in_select_students d tags r :
  In r (select_students_by_tags d tags)
  <-> exists p s, In p (persons d) /\ matches tags p = true
                  /\ In s (joined_sections d p) /\ r = row_of p s.
Proof.
  rewrite select_students_by_tags_flat, in_flat_map. split.
  - intros (p & Hp & Hin). destruct (matches tags p) eqn:Em; [|contradiction].
    apply in_map_iff in Hin as (s & <- & Hs). now exists p, s.
  - intros (p & s & Hp & Hm & Hs & ->). exists p. split; [assumption|].
    rewrite Hm. now apply in_map.
Qed.

(** X2: whatever it answers, a verification leaves persons, sections,
    links and classrooms as they were and keeps every attendance row
    that was there; each row it adds is at the classroom of the request
    and points at a student of the roster whose tag is in the batch. *)
Theorem verify_keeps_roster d body :
  persons (snd (fst (verify_attendance d body))) = persons d
  /\ sections (snd (fst (verify_attendance d body))) = sections d
  /\ student_sections (snd (fst (verify_attendance d body))) = student_sections d
  /\ classrooms (snd (fst (verify_attendance d body))) = classrooms d
  /\ exists new,
       attendance (snd (fst (verify_attendance d body))) = (attendance d ++ new)%list
       /\ forall a, In a new ->
            a_classroom_id a = classroom_of body
            /\ exists p, In p (persons d) /\ person_id p = a_person_id a
                         /\ person_role p = student
                         /\ In (rfid_tag p) (array_items (body_rfid_tags body)).
Proof.
  destruct (verify_attendance d body) as [[resp d'] lg] eqn:E. cbn [fst snd].
  pose proof (verify_attendance_frame _ _ _ _ _ E)
    as (Fp & Fs & Fl & Fc & new & Hn & Hcls & Hcnt & _).
  repeat (split; [assumption|]). exists new. split; [assumption|].
  intros a Ha. split; [exact (proj1 (Forall_forall _ _) Hcls a Ha)|].
  assert (Hin : In (a_person_id a)
                   (map r_person_id
                        (select_students_by_tags d (array_items (body_rfid_tags body))))).
  { apply (count_occ_In Z.eq_dec). specialize (Hcnt (a_person_id a)).
    assert (In (a_person_id a) (map a_person_id new)) as Hi by now apply in_map.
    apply (count_occ_In Z.eq_dec) in Hi. lia. }
  apply in_map_iff in Hin as (r & Hr & Hin).
  apply in_select_students in Hin as (p & s & Hp & Hm & _ & ->).
  unfold matches in Hm. apply andb_true_iff in Hm as [Hi Hro].
  exists p. repeat split; try assumption.
  - now apply role_eqb_eq.
  - now apply includes_In.
Qed.

(** X3: every entry of [verified_students] is marked Present and carries
    the name, tag and id number of a person of the roster whose role is
    student and whose tag is in the batch: a teacher's tag, or a tag that
    was not scanned, is never reported. *)
Theorem verified_students_sound d tags c r d' lg :
  verify_attendance d (mkVerifyBody (JsArray tags) c) = (VerifyOk r, d', lg) ->
  forall v, In v (verified_students r) ->
    vs_status v = "Present"
    /\ In (vs_rfid_tag v) tags
    /\ exists p, In p (persons d) /\ person_role p = student
                 /\ rfid_tag p = vs_rfid_tag v /\ name p = vs_name v
                 /\ id_number p = vs_id_number v.
Proof.
  intros H v Hv. apply verify_attendance_ok_inv in H as (tags' & Eb & _ & Ev & _).
  simpl in Eb. inversion Eb; subst tags'. rewrite Ev in Hv.
  apply in_map_iff in Hv as (row & <- & Hin).
  apply in_select_students in Hin as (p & s & Hp & Hm & _ & ->).
  unfold matches in Hm. apply andb_true_iff in Hm as [Hi Hro].
  split; [reflexivity|]. split; [now apply includes_In|].
  exists p. repeat split; try assumption. now apply role_eqb_eq.
Qed.

(** X4: a student who has no section link and whose tag is in the batch is
    reported, with the section 'Unknown'. *)
Theorem verify_unlinked_student d tags c r d' lg p :
  verify_attendance d (mkVerifyBody (JsArray tags) c) = (VerifyOk r, d', lg) ->
  In p (persons d) ->
  person_role p = student ->
  In (rfid_tag p) tags ->
  links_of_person d p = [] ->
  In (mkVerified (name p) "Unknown" (rfid_tag p) (id_number p) "Present")
     (verified_students r).
Proof.
  intros H Hp Hr Ht Hl. apply verify_attendance_ok_inv in H as (tags' & Eb & _ & Ev & _).
  simpl in Eb. inversion Eb; subst tags'. rewrite Ev.
  apply in_map_iff. exists (row_of p None). split; [reflexivity|].
  apply in_select_students. exists p, None. repeat split; try assumption.
  - unfold matches. rewrite Hr. simpl. rewrite andb_true_r. now apply includes_In.
  - unfold joined_sections, links_of. fold (links_of_person d p). rewrite Hl. simpl. now left.
Qed.





(* ===================================================================== *)
(** ** More on enrollment *)
(* ===================================================================== *)


(** X7: an enrollment that is not answered with success leaves every row
    of the store as it was, persons, sections, links, classrooms and
    attendance alike, also when a section row had been inserted before
    the failure; no row is left pending in the transaction.  Only the
    sequences may have advanced. *)
Theorem add_student_failure_keeps_rows d body c e st :
  add_student quiet d body = (EnrollError c e, st) ->
  same_rows d (committed st) /\ nothing_pending st.
Proof.
  intros H. split.
  - apply (add_student_quiet_frame _ _ _ _ H). discriminate.
  - revert H. unfold add_student. rewrite add_student_try_unfold. cbv zeta.
    destruct (negb (valid_body body)).
    { intros H. inversion H; subst. reflexivity. }
    destruct (existsb _ _).
    { intros H. inversion H; subst. reflexivity. }
    destruct (existsb _ _).
    { intros H. inversion H; subst. reflexivity. }
    destruct (enroll_rows _ _ _) as [r s1|e1 s1|r s1] eqn:E.
    + intros H. inversion H; subst.
      apply enroll_rows_value in E as (msg & s & Er). discriminate.
    + unfold add_student_catch.
      destruct (code e1 =? "23505")%string; intros H; inversion H; subst; exact I.
    + now apply enroll_rows_responds_never in E.
Qed.

(** X8: with a valid body and a tag that is free, an id number that a
    person already carries is answered 400 'ID number already exists'
    after [BEGIN] and the two lookups; the store is unchanged. *)
Theorem add_student_duplicate_id_number d body :
  valid_body body = true ->
  tag_taken body (persons d) = false ->
  id_number_taken body (persons d) = true ->
  add_student quiet d body
  = (duplicate_id_number,
     mkClient d (Some empty_txn)
              [PoolConnect; Query BEGIN;
               Query (SELECT_person_by_rfid_tag (field (body_rfid_tag body)));
               Query (SELECT_person_by_id_number (field (body_id_number body)));
               ClientRelease]).
Proof.
  intros V T I.
  unfold add_student. rewrite add_student_try_unfold. cbv zeta.
  unfold begin_stmt, issue, view_persons, quiet.
  cbn [committed pending log tx_persons empty_txn]. rewrite !app_nil_r.
  fold (tag_taken body (persons d)). fold (id_number_taken body (persons d)).
  rewrite V, T, I. reflexivity.
Qed.

(** X9: the answer is 400 'Missing required fields' exactly when one of
    name, rfid_tag, section, id_number is absent or empty, whatever the
    store holds and whatever other requests do meanwhile. *)
Theorem add_student_missing_iff env d body :
  fst (add_student env d body) = missing_fields <-> valid_body body = false.
Proof.
  split.
  - destruct (valid_body body) eqn:V; [|reflexivity]. intros H. exfalso. revert H.
    unfold add_student. rewrite add_student_try_unfold. cbv zeta. rewrite V. cbn [negb].
    destruct (existsb _ _); [discriminate|].
    destruct (existsb _ _); [discriminate|].
    destruct (enroll_rows _ _ _) as [r s1|e1 s1|r s1] eqn:E.
    + apply enroll_rows_value in E as (msg & s & ->). discriminate.
    + unfold add_student_catch. destruct (code e1 =? "23505")%string; discriminate.
    + now apply enroll_rows_responds_never in E.
  - intros V. now rewrite (add_student_missing env d body V).
Qed.

Lemma insert_person_overflow env nm tag idn st :
  (100 <? String.length nm)%nat || (100 <? String.length tag)%nat
  || (20 <? String.length idn)%nat = true ->
  insert_person env nm tag idn st
  = Thrown string_data_right_truncation
           (nextval_person (issue env (INSERT_person nm tag idn) st)).
Proof. intros H. unfold insert_person. now rewrite H. Qed.

(** For a handler running alone, a valid body with a free tag and a free
    id number reaches the inserts with the store untouched. *)
Lemma add_student_try_rows d body :
  valid_body body = true ->
  tag_taken body (persons d) = false ->
  id_number_taken body (persons d) = false ->
  add_student_try quiet body (mkClient d None [PoolConnect])
  = enroll_rows quiet body (mkClient d (Some empty_txn) (checked_log body)).
Proof.
  intros V Ht Hi. rewrite add_student_try_unfold. cbv zeta.
  unfold begin_stmt, issue, view_persons, quiet.
  cbn [committed pending log tx_persons empty_txn]. rewrite !app_nil_r.
  fold (tag_taken body (persons d)). fold (id_number_taken body (persons d)).
  now rewrite V, Ht, Hi.
Qed.

(** On a well-formed store the section step of a handler running alone
    either yields a section id or fails on the width of the name. *)
Lemma section_step_quiet d body lg :
  store_ok d ->
  let st := issue quiet (SELECT_section_by_name (field (body_section body)))
                  (mkClient d (Some empty_txn) lg) in
  let step := match map section_id
                        (filter (fun s => (section_name s =? field (body_section body))%string)
                                (view_sections st)) with
              | [] => insert_section quiet (field (body_section body))
              | id :: _ => ret id
              end st in
  (exists sid st', step = Value sid st')
  \/ (exists st', step = Thrown string_data_right_truncation st').
Proof.
  intros K. cbv zeta. unfold view_sections, issue, quiet.
  cbn [committed pending log tx_sections empty_txn]. rewrite app_nil_r.
  destruct (filter _ (sections d)) as [|s0 ss] eqn:F; cbn [map].
  - unfold insert_section, nextval_section, issue, write, view_sections, quiet.
    cbn [committed pending log tx_sections empty_txn sections set_section_id_seq].
    rewrite !app_nil_r.
    destruct (50 <? String.length (field (body_section body)))%nat; [right; eauto|].
    rewrite (existsb_false (fun s => section_id s =? section_id_seq d)).
    + rewrite (proj2 (existsb_filter_nil _ _) F). left. eauto.
    + intros s Hs. apply Z.eqb_neq. pose proof (sections_seq d K s Hs). lia.
  - left. unfold ret. eauto.
Qed.

Lemma text_beyond_longer n s : text_beyond n s = true -> (n <? String.length s)%nat = true.
Proof.
  unfold text_beyond. revert s. induction n as [|n IH]; intros s H.
  - destruct s; [discriminate | reflexivity].
  - destruct s as [|c s]; [discriminate|]. simpl in H. apply (IH s H).
Qed.

Lemma person_text_overflow_overflow body :
  person_text_overflow body = true -> person_overflow body = true.
Proof.
  unfold person_text_overflow, person_overflow. intros H.
  apply orb_true_iff in H as [H|H]; [apply orb_true_iff in H as [H|H]|];
    apply text_beyond_longer in H; rewrite H; rewrite ?orb_true_r; reflexivity.
Qed.

(** X11: on a well-formed store, a request that passes the validation and
    both duplicate checks, whose section name fits its column and whose
    name, tag or id number runs past its column (100, 100 and 20
    characters) with a character other than a space, is answered with
    the generic 500 'Failed to add student'; the transaction is rolled
    back and no row is kept. *)
Theorem add_student_overflow d body :
  store_ok d ->
  valid_body body = true ->
  tag_taken body (persons d) = false ->
  id_number_taken body (persons d) = false ->
  (String.length (field (body_section body)) <= 50)%nat ->
  person_text_overflow body = true ->
  fst (add_student quiet d body) = add_student_failed
  /\ same_rows d (committed (snd (add_student quiet d body)))
  /\ pending (snd (add_student quiet d body)) = None.
Proof.
  intros K V Ht Hi _ Ho. apply person_text_overflow_overflow in Ho.
  assert (Hthrown : exists st',
             add_student_try quiet body (mkClient d None [PoolConnect])
             = Thrown string_data_right_truncation st').
  { rewrite (add_student_try_rows d body V Ht Hi).
    unfold enroll_rows. rewrite bind_unfold.
    unfold select_section_by_name at 1. cbv beta iota zeta. rewrite bind_unfold.
    pose proof (section_step_quiet d body (checked_log body) K) as S. cbv zeta in S.
    destruct S as [(sid & st' & S)|(st' & S)]; rewrite S.
    - rewrite bind_unfold, insert_person_overflow by exact Ho. eauto.
    - eauto. }
  destruct Hthrown as [st' T].
  destruct (add_student quiet d body) as [resp st] eqn:E. cbn [fst snd].
  assert (Er : resp = add_student_failed /\ pending st = None).
  { unfold add_student in E. rewrite T in E. unfold add_student_catch in E.
    cbn in E. inversion E; subst. split; reflexivity. }
  destruct Er as [-> Hp]. split; [reflexivity|]. split; [|exact Hp].
  apply (add_student_quiet_frame _ _ _ _ E). discriminate.
Qed.

Lemma id_number_free body ps :
  id_number_taken body ps = false ->
  ~ In (field (body_id_number body))
       (flat_map (fun p => match id_number p with Some i => [i] | None => [] end) ps).
Proof.
  intros H Hin. apply in_flat_map in Hin as (p & Hp & Hi).
  assert (id_number_taken body ps = true); [|congruence].
  unfold id_number_taken. apply existsb_exists. exists p. split; [assumption|].
  destruct (id_number p) as [i|]; [|destruct Hi].
  destruct Hi as [->|[]]. apply String.eqb_refl.
Qed.

Lemma enrolled_store_well_formed d body sid added :
  well_formed d ->
  tag_taken body (persons d) = false ->
  id_number_taken body (persons d) = false ->
  resolved_section d body sid added ->
  well_formed (enrolled_store d body sid added).
Proof.
  intros (K & Hn & Hi) Ht Hid Hr. split; [now apply enrolled_store_ok|]. split.
  - cbn [enrolled_store sections]. unfold resolved_section in Hr.
    destruct (filter _ (sections d)) eqn:F.
    + destruct Hr as [_ ->]. rewrite map_app. apply NoDup_snoc; [assumption|].
      cbn [section_name]. apply (existsb_false_not_in section_name String.eqb).
      * apply String.eqb_eq.
      * now apply existsb_filter_nil.
    + destruct Hr as [_ ->]. now rewrite app_nil_r.
  - unfold id_numbers. cbn [enrolled_store persons]. rewrite flat_map_app.
    cbn [flat_map id_number app]. apply NoDup_snoc; [assumption|].
    now apply id_number_free.
Qed.

Lemma well_formed_same_rows d d' : same_rows d d' -> well_formed d -> well_formed d'.
Proof.
  intros R (K & Hn & Hi). split; [exact (store_ok_same_rows _ _ R K)|].
  destruct R as (Ep & Es & _). unfold id_numbers. now rewrite Ep, Es.
Qed.

(** X12: the handlers keep the store well formed.  From a store in which
    person ids, tags, id numbers, section ids and section names are
    unique, links point at persons, no person has two section links and
    the sequences are ahead of the ids in use, an enrollment (whatever it
    answers) and a verification (whatever it answers) both lead to such a
    store again. *)
Theorem handlers_keep_well_formed d :
  well_formed d ->
  (forall body, well_formed (committed (snd (add_student quiet d body))))
  /\ (forall body, well_formed (snd (fst (verify_attendance d body)))).
Proof.
  intros W. split; intros body.
  - destruct (add_student quiet d body) as [[msg s|c e] st] eqn:E; cbn [snd].
    + apply add_student_ok_store in E as (_ & Ht & Hi & sid & added & Hr & _ & -> & _).
      now apply enrolled_store_well_formed.
    + apply (well_formed_same_rows d); [|assumption].
      apply (add_student_quiet_frame _ _ _ _ E). discriminate.
  - destruct (verify_attendance d body) as [[resp d'] lg] eqn:E. cbn [fst snd].
    destruct W as (K & Hn & Hi).
    split; [exact (verify_attendance_keeps_store_ok _ _ _ _ _ K E)|].
    apply verify_attendance_frame in E as (Ep & Es & _).
    unfold id_numbers. now rewrite Ep, Es.
Qed.

(* ===================================================================== *)
(** ** The attendance query *)
(* ===================================================================== *)

Lemma append_assoc (a b c : string) : (a ++ b) ++ c = a ++ (b ++ c).
Proof. induction a as [|x a IH]; simpl; [reflexivity | now rewrite IH]. Qed.

Lemma append_nil_r (a : string) : a ++ "" = a.
Proof. induction a as [|x a IH]; simpl; [reflexivity | now rewrite IH]. Qed.

(** X16: in the attendance query the placeholders and the parameters line
    up.  The text is the fixed SELECT followed by one condition for each
    filter that is present (non-empty), in the order date, section_name,
    classroom_id, numbered $1, $2, ... without gaps, and the parameter
    list holds the values of exactly those filters in the same order. *)
Theorem attendance_query_aligned date section_name classroom_id :
  let active := attendance_filters date section_name classroom_id in
  fst (attendance_query date section_name classroom_id)
  = attendance_select ++ numbered_conditions 1 (map fst active)
    ++ " ORDER BY a.timestamp DESC"
  /\ snd (attendance_query date section_name classroom_id) = map snd active.
Proof.
  unfold attendance_query, attendance_filters, add_filter.
  cbn [filter map fst snd].
  destruct (truthy_field date), (truthy_field section_name), (truthy_field classroom_id);
    cbn [b_query b_params b_count map fst snd numbered_conditions app];
    rewrite ?append_assoc, ?append_nil_r; split; reflexivity.
Qed.

(* ===================================================================== *)
(** ** The bootstrap *)
(* ===================================================================== *)

(** The store the sample requests start from is what the bootstrap makes
    of an empty database. *)
Example bootstrap_of_empty_database :
  post_init_db empty_database
  = (mkResponse 200 (JObj [("success", JBool true);
                           ("message", JStr "Database initialized successfully")]),
     mkDatabase fresh_store 2).
Proof. reflexivity. Qed.

(** X13: the bootstrap is idempotent: once it has succeeded, running it
    again succeeds and changes nothing, neither a row nor a sequence. *)
Theorem init_db_idempotent D D1 :
  init_db_script D = (D1, None) ->
  init_db_script D1 = (D1, None).
Proof.
  unfold init_db_script. destruct D as [d cseq]. cbn [tables classroom_id_seq].
  destruct (existsb (fun c => (room_number c =? default_room)%string) (classrooms d)) eqn:Er.
  - destruct (sections d) as [|s ss] eqn:Es; intros H; inversion H; subst; clear H;
      cbn [tables classroom_id_seq seed_sections classrooms sections].
    + rewrite Er, Es. reflexivity.
    + rewrite Er, Es. reflexivity.
  - destruct (existsb (fun c => classroom_id c =? cseq) (classrooms d)); [discriminate|].
    assert (Hr : existsb (fun c => (room_number c =? default_room)%string)
                         (classrooms d ++ [mkClassroom cseq default_room]) = true).
    { rewrite existsb_app. simpl. now rewrite orb_true_r. }
    destruct (sections d) as [|s ss] eqn:Es; intros H; inversion H; subst; clear H;
      cbn [tables classroom_id_seq seed_sections set_classrooms classrooms sections];
      rewrite Hr, ?Es; reflexivity.
Qed.

Lemma number_sections_names next names :
  map section_name (number_sections next names) = names.
Proof.
  revert next. induction names as [|n rest IH]; intros next; simpl; [reflexivity|].
  now rewrite IH.
Qed.

Lemma number_sections_ids next names s :
  In s (number_sections next names) ->
  next <= section_id s < next + Z.of_nat (List.length names).
Proof.
  revert next. induction names as [|n rest IH]; intros next; [intros []|].
  cbn [number_sections List.length]. intros [<-|Hin]; [simpl; lia|].
  specialize (IH _ Hin). lia.
Qed.

Lemma number_sections_key next names :
  NoDup (map section_id (number_sections next names)).
Proof.
  revert next. induction names as [|n rest IH]; intros next; simpl; constructor.
  - intros Hin. apply in_map_iff in Hin as (s & Es & Hin).
    apply number_sections_ids in Hin. lia.
  - apply IH.
Qed.

(** X14: the bootstrap never touches what is there.  Persons, links and
    attendance are left alone and no section or classroom row is removed
    or changed; the only classroom it can add is the default room; the
    default sections are added only when the sections table has no row,
    so a table with any row in it stays as it is.  After a successful run
    the default room exists and the sections table is not empty; after a
    failed run no row has changed. *)
Theorem init_db_keeps_data D :
  let D1 := fst (init_db_script D) in
  persons (tables D1) = persons (tables D)
  /\ student_sections (tables D1) = student_sections (tables D)
  /\ attendance (tables D1) = attendance (tables D)
  /\ (sections (tables D) <> [] -> sections (tables D1) = sections (tables D))
  /\ (exists cs, classrooms (tables D1) = (classrooms (tables D) ++ cs)%list
                 /\ forall c, In c cs -> room_number c = default_room)
  /\ (snd (init_db_script D) = None ->
      existsb (fun c => (room_number c =? default_room)%string) (classrooms (tables D1)) = true
      /\ (sections (tables D) = [] ->
          map section_name (sections (tables D1)) = default_section_names))
  /\ (snd (init_db_script D) <> None ->
      same_rows (tables D) (tables D1)).
Proof.
  unfold init_db_script. destruct D as [d cseq]. cbn [tables classroom_id_seq].
  destruct (existsb (fun c => (room_number c =? default_room)%string) (classrooms d)) eqn:Er.
  - destruct (sections d) as [|s ss] eqn:Es;
      cbn [fst snd tables seed_sections persons sections student_sections classrooms attendance].
    + repeat (split; [reflexivity|]). split; [congruence|].
      split; [exists []; rewrite app_nil_r; split; [reflexivity | intros c []]|].
      split; [|congruence]. intros _. split; [exact Er|]. intros _.
      rewrite Es. reflexivity.
    + rewrite Es. repeat (split; [reflexivity|]).
      split; [exists []; rewrite app_nil_r; split; [reflexivity | intros c []]|].
      split; [|congruence]. intros _. split; [exact Er | discriminate].
  - destruct (existsb (fun c => classroom_id c =? cseq) (classrooms d)).
    + cbn [fst snd tables]. repeat (split; [reflexivity|]).
      split; [exists []; rewrite app_nil_r; split; [reflexivity | intros c []]|].
      split; [discriminate|]. intros _. apply same_rows_refl.
    + assert (Hr : existsb (fun c => (room_number c =? default_room)%string)
                           (classrooms d ++ [mkClassroom cseq default_room]) = true).
      { rewrite existsb_app. simpl. now rewrite orb_true_r. }
      destruct (sections d) as [|s ss] eqn:Es;
        cbn [fst snd tables seed_sections set_classrooms persons sections student_sections
             classrooms attendance].
      * repeat (split; [reflexivity|]). split; [congruence|].
        split; [eexists; split; [reflexivity | intros c [<-|[]]; reflexivity]|].
        split; [|congruence]. intros _. split; [exact Hr|]. intros _.
        rewrite Es. reflexivity.
      * rewrite Es. repeat (split; [reflexivity|]).
        split; [eexists; split; [reflexivity | intros c [<-|[]]; reflexivity]|].
        split; [|congruence]. intros _. split; [exact Hr | discriminate].
Qed.

Lemma seed_sections_well_formed d :
  well_formed d -> sections d = [] -> well_formed (seed_sections d default_section_names).
Proof.
  intros ([K1 K2 K3 K4 K5 K6 K7 K8] & Hn & Hi) Es. split; [|split].
  - constructor; unfold links_of_person;
      cbn [seed_sections persons sections student_sections attendance person_id_seq
           section_id_seq attendance_id_seq]; auto.
    + rewrite Es. cbn [app]. apply number_sections_key.
    + rewrite Es. cbn [app]. intros s Hs. apply number_sections_ids in Hs. lia.
  - cbn [seed_sections sections]. rewrite Es. cbn [app]. rewrite number_sections_names.
    exact (NoDup_nodup string_dec default_section_names).
  - exact Hi.
Qed.

(** X15: the bootstrap keeps a well-formed store well formed, whether it
    succeeds or fails. *)
Theorem init_db_keeps_well_formed D :
  well_formed (tables D) -> well_formed (tables (fst (init_db_script D))).
Proof.
  intros W. unfold init_db_script. destruct D as [d cseq]. cbn [tables classroom_id_seq] in *.
  assert (Hc : forall cs, well_formed (set_classrooms d cs)).
  { intros cs. destruct W as ([K1 K2 K3 K4 K5 K6 K7 K8] & Hn & Hi).
    split; [constructor; assumption | split; assumption]. }
  destruct (existsb _ (classrooms d)).
  - destruct (sections d) eqn:Es; cbn [fst tables]; [|exact W].
    now apply seed_sections_well_formed.
  - destruct (existsb _ (classrooms d)); cbn [fst tables]; [exact W|].
    destruct (sections d) eqn:Es; cbn [fst tables]; [|apply Hc].
    apply seed_sections_well_formed; [apply Hc | exact Es].
Qed.

(* ===================================================================== *)
(** ** The listings *)
(* ===================================================================== *)

Section OrderBy.
Context {A : Type} (leb : string -> string -> bool) (key : A -> string).

Lemma insert_by_perm (x : A) (l : list A) : Permutation (insert_by leb key x l) (x :: l).
Proof.
  induction l as [|y l IH]; simpl; [reflexivity|].
  destruct (leb (key x) (key y)); [reflexivity|].
  rewrite IH. apply perm_swap.
Qed.

Lemma order_by_perm (l : list A) : Permutation (order_by leb key l) l.
Proof.
  induction l as [|x l IH]; simpl; [reflexivity|].
  rewrite insert_by_perm. now constructor.
Qed.

Lemma in_order_by (x : A) (l : list A) : In x (order_by leb key l) <-> In x l.
Proof.
  split; apply Permutation_in; [apply order_by_perm | symmetry; apply order_by_perm].
Qed.
End OrderBy.

Lemma in_persons_join_sections d p s :
  In (p, s) (persons_join_sections d) <-> In p (persons d) /\ In s (joined_sections d p).
Proof.
  unfold persons_join_sections. rewrite in_flat_map. split.
  - intros (q & Hq & Hin). apply in_map_iff in Hin as (s' & E & Hs). inversion E; subst.
    now split.
  - intros [Hp Hs]. exists p. split; [assumption|]. now apply in_map.
Qed.

Lemma in_select_students_listing leb d q r :
  In r (select_students leb d q)
  <-> exists p s, In p (persons d) /\ In s (joined_sections d p)
                  /\ students_where q (p, s) = true /\ r = row_of p s.
Proof.
  unfold select_students. rewrite in_order_by, in_map_iff. split.
  - intros ([p s] & <- & Hin). apply filter_In in Hin as [Hin Hw].
    apply in_persons_join_sections in Hin as [Hp Hs]. now exists p, s.
  - intros (p & s & Hp & Hs & Hw & ->). exists (p, s). split; [reflexivity|].
    apply filter_In. split; [|assumption]. now apply in_persons_join_sections.
Qed.

(** X17: what the student listing shows.  Every row is a person of the
    roster whose role is student, with the name of one of the person's
    sections (null when the person has none); a teacher is never
    listed.  With a non-empty [section_name] every row carries that
    section name, so students without a section are left out; with no
    [section_name], or an empty one, every student is listed. *)
Theorem students_listing leb d q :
  (forall r, In r (select_students leb d q) ->
     (exists p, In p (persons d) /\ person_role p = student
                /\ r_person_id r = person_id p /\ r_name r = name p
                /\ r_rfid_tag r = rfid_tag p /\ r_id_number r = id_number p
                /\ In (r_section_name r) (joined_sections d p))
     /\ (truthy_field q = true -> r_section_name r = Some (field q)))
  /\ (truthy_field q = false ->
      forall p, In p (persons d) -> person_role p = student ->
                exists s, In (row_of p s) (select_students leb d q)).
Proof.
  split.
  - intros r H. apply in_select_students_listing in H as (p & s & Hp & Hs & Hw & ->).
    unfold students_where in Hw. apply andb_true_iff in Hw as [Hr Hf]. cbn [fst snd] in *.
    split.
    + exists p. repeat split; try assumption. now apply role_eqb_eq.
    + intros Ht. rewrite Ht in Hf. destruct s as [n|]; [|discriminate].
      apply String.eqb_eq in Hf. now subst.
  - intros Hq p Hp Hr.
    destruct (joined_sections d p) as [|s js] eqn:Ej;
      [now apply joined_sections_nonempty in Ej|].
    exists s. apply in_select_students_listing. exists p, s.
    repeat split; try assumption.
    + rewrite Ej. now left.
    + unfold students_where. cbn [fst snd]. rewrite Hq, Hr. reflexivity.
Qed.

(** X18: listing the students of a section that no student is linked to is
    answered with success and an empty list. *)
Theorem students_of_empty_section leb d n :
  n <> "" ->
  (forall p, In p (persons d) -> person_role p = student ->
             ~ In (Some n) (joined_sections d p)) ->
  select_students leb d (Some n) = []
  /\ get_students_on leb d (Some n)
     = mkResponse 200 (JObj [("success", JBool true); ("students", JArr [])]).
Proof.
  intros Hn Hno.
  assert (E : select_students leb d (Some n) = []).
  { destruct (select_students leb d (Some n)) as [|r rs] eqn:E; [reflexivity|].
    assert (Hin : In r (select_students leb d (Some n))) by (rewrite E; now left).
    apply in_select_students_listing in Hin as (p & s & Hp & Hs & Hw & _).
    unfold students_where in Hw. apply andb_true_iff in Hw as [Hr Hf]. cbn [fst snd] in *.
    assert (Ht : truthy_field (Some n) = true).
    { simpl. destruct (String.eqb_spec n ""); [contradiction | reflexivity]. }
    rewrite Ht in Hf. destruct s as [m|]; [|discriminate].
    apply String.eqb_eq in Hf. simpl in Hf. subst m.
    apply role_eqb_eq in Hr. now elim (Hno p Hp Hr). }
  split; [exact E|]. unfold get_students_on. now rewrite E.
Qed.


(* ===================================================================== *)
(** ** Instances on the sample stores *)
(* ===================================================================== *)

Lemma fresh_store_well_formed : well_formed fresh_store.
Proof.
  split; [exact fresh_store_ok|]. split.
  - exact (NoDup_nodup string_dec default_section_names).
  - constructor.
Qed.

Lemma store_alice_well_formed : well_formed store_alice.
Proof.
  change store_alice with (enrolled_store fresh_store alice_body 1 []).
  apply enrolled_store_well_formed;
    [exact fresh_store_well_formed | reflexivity | reflexivity | split; reflexivity].
Qed.

(** [verify_unknown_classroom] on a scan of Alice's tag at classroom 7. *)
Lemma verify_unknown_classroom_witness :
  classroom_exists store_alice 7 = false
  /\ attendance (snd (fst (verify_attendance store_alice
                             (mkVerifyBody (JsArray ["RFID1"]) (Some 7)))))
     = attendance store_alice
  /\ fst (fst (verify_attendance store_alice (mkVerifyBody (JsArray ["RFID1"]) (Some 7))))
     = VerifyFailed.
Proof.
  split; [reflexivity|].
  destruct (verify_unknown_classroom store_alice ["RFID1"] (Some 7) eq_refl) as (Ha & _ & Hf).
  split; [exact Ha|]. apply Hf. exists "RFID1". split; [now left | reflexivity].
Defined.

(** [verified_students_sound] on the scan of Alice's tag and an unknown
    one. *)
Lemma verified_students_sound_witness :
  verify_attendance store_alice scan_body
    = (VerifyOk scan_result, store_scanned, snd (verify_attendance store_alice scan_body))
  /\ forall v, In v (verified_students scan_result) ->
       vs_status v = "Present"
       /\ In (vs_rfid_tag v) ["RFID1"; "RFID9"]
       /\ exists p, In p (persons store_alice) /\ person_role p = student
                    /\ rfid_tag p = vs_rfid_tag v /\ name p = vs_name v
                    /\ id_number p = vs_id_number v.
Proof.
  assert (E : verify_attendance store_alice scan_body
              = (VerifyOk scan_result, store_scanned,
                 snd (verify_attendance store_alice scan_body))) by reflexivity.
  split; [exact E|]. exact (verified_students_sound _ _ _ _ _ _ E).
Defined.

(** [verify_unlinked_student] on Alice without her link. *)
Lemma verify_unlinked_student_witness :
  In (mkVerified "Alice" "Unknown" "RFID1" (Some "S001") "Present")
     (verified_students
        (mkVerifyResult 1 [mkVerified "Alice" "Unknown" "RFID1" (Some "S001") "Present"] []
                        "1 students verified, 0 unrecognized tags")).
Proof.
  exact (verify_unlinked_student store_unlinked ["RFID1"] None
           (mkVerifyResult 1 [mkVerified "Alice" "Unknown" "RFID1" (Some "S001") "Present"] []
                           "1 students verified, 0 unrecognized tags")
           (snd (fst (verify_attendance store_unlinked (mkVerifyBody (JsArray ["RFID1"]) None))))
           (snd (verify_attendance store_unlinked (mkVerifyBody (JsArray ["RFID1"]) None)))
           (mkPerson 1 "Alice" "RFID1" student (Some "S001"))
           eq_refl (or_introl eq_refl) eq_refl (or_introl eq_refl) eq_refl).
Defined.



(** [add_student_failure_keeps_rows] on a request that creates the
    section MATH-1 and then fails on the width of the id number: the
    section row is gone again, the section sequence has moved on. *)
Lemma add_student_failure_keeps_rows_witness :
  add_student quiet fresh_store long_id_body
    = (EnrollError 500 "Failed to add student", snd (add_student quiet fresh_store long_id_body))
  /\ same_rows fresh_store (committed (snd (add_student quiet fresh_store long_id_body)))
  /\ nothing_pending (snd (add_student quiet fresh_store long_id_body))
  /\ section_id_seq (committed (snd (add_student quiet fresh_store long_id_body))) = 8.
Proof.
  assert (E : add_student quiet fresh_store long_id_body
              = (EnrollError 500 "Failed to add student",
                 snd (add_student quiet fresh_store long_id_body))) by reflexivity.
  split; [exact E|].
  destruct (add_student_failure_keeps_rows _ _ _ _ _ E) as [R P].
  split; [exact R|]. split; [exact P | reflexivity].
Defined.

(** [add_student_duplicate_id_number] on a request that reuses Alice's id
    number under a new tag. *)
Lemma add_student_duplicate_id_number_witness :
  valid_body same_id_as_alice_body = true
  /\ tag_taken same_id_as_alice_body (persons store_alice) = false
  /\ id_number_taken same_id_as_alice_body (persons store_alice) = true
  /\ add_student quiet store_alice same_id_as_alice_body
     = (duplicate_id_number,
        mkClient store_alice (Some empty_txn)
                 [PoolConnect; Query BEGIN; Query (SELECT_person_by_rfid_tag "RFID6");
                  Query (SELECT_person_by_id_number "S001"); ClientRelease]).
Proof.
  do 3 (split; [reflexivity|]).
  exact (add_student_duplicate_id_number store_alice same_id_as_alice_body
           eq_refl eq_refl eq_refl).
Defined.

Lemma fits_columns_bob : fits_columns bob_body.
Proof. unfold fits_columns. simpl. repeat split; lia. Qed.

(** [add_student_succeeds] on Bob's enrollment after Alice's. *)
Lemma add_student_succeeds_witness :
  valid_body bob_body = true
  /\ tag_taken bob_body (persons store_alice) = false
  /\ id_number_taken bob_body (persons store_alice) = false
  /\ exists sid added st,
       resolved_section store_alice bob_body sid added
       /\ add_student quiet store_alice bob_body
          = (EnrollOk "Student Bob added successfully"
                      (mkEnrolled 2 "Bob" "RFID2" "CS-B" "S002"), st)
       /\ committed st = enrolled_store store_alice bob_body sid added.
Proof.
  do 3 (split; [reflexivity|]).
  exact (add_student_succeeds store_alice bob_body
           (reachable_store_ok _ (reach_enroll _ alice_body reach_init))
           eq_refl eq_refl eq_refl fits_columns_bob).
Defined.

(** [add_student_overflow] on the request with the long id number. *)
Lemma add_student_overflow_witness :
  valid_body long_id_body = true
  /\ tag_taken long_id_body (persons fresh_store) = false
  /\ id_number_taken long_id_body (persons fresh_store) = false
  /\ (String.length (field (body_section long_id_body)) <= 50)%nat
  /\ person_text_overflow long_id_body = true
  /\ fst (add_student quiet fresh_store long_id_body) = add_student_failed
  /\ same_rows fresh_store (committed (snd (add_student quiet fresh_store long_id_body)))
  /\ pending (snd (add_student quiet fresh_store long_id_body)) = None.
Proof.
  assert (Hs : (String.length (field (body_section long_id_body)) <= 50)%nat)
    by (simpl; lia).
  do 3 (split; [reflexivity|]). split; [exact Hs|]. split; [reflexivity|].
  exact (add_student_overflow fresh_store long_id_body fresh_store_ok
           eq_refl eq_refl eq_refl Hs eq_refl).
Defined.

(** [handlers_keep_well_formed] on the bootstrapped store. *)
Lemma handlers_keep_well_formed_witness :
  well_formed fresh_store
  /\ (forall body, well_formed (committed (snd (add_student quiet fresh_store body))))
  /\ (forall body, well_formed (snd (fst (verify_attendance fresh_store body)))).
Proof.
  split; [exact fresh_store_well_formed|].
  exact (handlers_keep_well_formed fresh_store fresh_store_well_formed).
Defined.

(** [init_db_idempotent] on an empty database. *)
Lemma init_db_idempotent_witness :
  init_db_script empty_database = (mkDatabase fresh_store 2, None)
  /\ init_db_script (mkDatabase fresh_store 2) = (mkDatabase fresh_store 2, None).
Proof.
  split; [reflexivity|].
  exact (init_db_idempotent empty_database (mkDatabase fresh_store 2) eq_refl).
Defined.

(** [init_db_keeps_well_formed] on the store with Alice enrolled. *)
Lemma init_db_keeps_well_formed_witness :
  well_formed (tables (mkDatabase store_alice 2))
  /\ well_formed (tables (fst (init_db_script (mkDatabase store_alice 2)))).
Proof.
  split; [exact store_alice_well_formed|].
  exact (init_db_keeps_well_formed (mkDatabase store_alice 2) store_alice_well_formed).
Defined.

(** [students_of_empty_section] on CS-B, which Alice is not in. *)
Lemma students_of_empty_section_witness :
  "CS-B" <> ""
  /\ select_students String.leb store_alice (Some "CS-B") = []
  /\ get_students_on String.leb store_alice (Some "CS-B")
     = mkResponse 200 (JObj [("success", JBool true); ("students", JArr [])]).
Proof.
  assert (Hn : "CS-B" <> "") by discriminate.
  split; [exact Hn|].
  apply (students_of_empty_section String.leb store_alice "CS-B" Hn).
  intros p [<-|[]] _ H. vm_compute in H. destruct H as [H|[]]. discriminate.
Defined.

